(** * Stock-state reconciliation of telegram_woocommerce_integration

    Shallow embedding of [check_and_notify_products] (src/main.py) and of
    [handle_reply] (src/telegram_handler.py).

    The Python module keeps two globals, [PRODUCT_STOCK_STATES] (a dict from
    product id to a small dict of fields) and [INITIAL_RUN_COMPLETE].  They are
    modelled as a [world] record threaded through each run.  The dict keeps
    insertion order, which the post-scan sweep iterates in, so the store is an
    association list: assigning an existing key updates it in place, a new key
    is appended at the end.

    The stock classifier [wc.check_product_stock_status] and the notifier
    [tg.send_out_of_stock_notification] are section parameters: every
    theorem about the engine holds for any classifier and any notifier. *)

From Stdlib Require Import List ZArith Bool String Ascii Lia QArith_base DecimalString.
From Stdlib Require DecimalPos.
Import ListNotations.
Open Scope Z_scope.

(** ** Data model *)

(** A raw WooCommerce product record, as read through [product.get(...)].
    [None] stands for a missing key (or a JSON null). *)
Record product := mk_product {
  p_id : option Z;
  p_name : option string;
  p_permalink : option string;
  p_in_stock : bool   (** the stock flag reported by the API *)
}.

(** One value of [PRODUCT_STOCK_STATES]: the dict
    [{"name", "is_out_of_stock", "permalink", "notified"}]. *)
Record state := mk_state {
  name : string;
  is_out_of_stock : bool;
  permalink : string;
  notified : bool
}.

Definition set_notified (b : bool) (st : state) : state :=
  mk_state (name st) (is_out_of_stock st) (permalink st) b.

Definition set_is_out_of_stock (b : bool) (st : state) : state :=
  mk_state (name st) b (permalink st) (notified st).

Definition set_name_permalink (n l : string) (st : state) : state :=
  mk_state n (is_out_of_stock st) l (notified st).

(** The insertion-ordered dict [PRODUCT_STOCK_STATES]. *)
Definition store := list (Z * state).

(** [PRODUCT_STOCK_STATES.get(k)]. *)
Fixpoint lookup (k : Z) (s : store) : option state :=
  match s with
  | [] => None
  | (k', v) :: t => if Z.eqb k k' then Some v else lookup k t
  end.

(** [PRODUCT_STOCK_STATES[k] = v]: in place for a present key, appended
    for a new one. *)
Fixpoint set_entry (k : Z) (v : state) (s : store) : store :=
  match s with
  | [] => [(k, v)]
  | (k', v') :: t => if Z.eqb k k' then (k', v) :: t else (k', v') :: set_entry k v t
  end.

(** The two module-level globals. *)
Record world := mk_world {
  PRODUCT_STOCK_STATES : store;
  INITIAL_RUN_COMPLETE : bool
}.

Definition initial_world : world := mk_world [] false.

(** One call of [tg.send_out_of_stock_notification(name, id, permalink)],
    with the value the call returned ([delivered]). *)
Record notification := mk_notification {
  n_name : string;
  n_id : Z;
  n_permalink : string;
  n_delivered : bool
}.

(** Python truthiness of [product.get('id')]: [None] and [0] are falsy. *)
Definition truthy_id (i : option Z) : option Z :=
  match i with
  | Some k => if Z.eqb k 0 then None else Some k
  | None => None
  end.

(** [id in current_cycle_product_ids]. *)
Definition mem_id (i : option Z) (ids : list (option Z)) : bool :=
  existsb (fun j => match i, j with
                    | Some a, Some b => Z.eqb a b
                    | None, None => true
                    | _, _ => false
                    end) ids.

Definition product_name (p : product) : string :=
  match p_name p with Some n => n | None => "Unknown Product" end.

Definition product_permalink (p : product) : string :=
  match p_permalink p with Some l => l | None => "" end.

Section Engine.

(** [wc.check_product_stock_status(product)]. *)
Variable check_product_stock_status : product -> bool.

(** [tg.send_out_of_stock_notification(name, id, permalink)]: the spec's
    notifier contract returns whether delivery succeeded. *)
Variable send_out_of_stock_notification : string -> Z -> string -> bool.

Definition notify (n : string) (k : Z) (l : string) : notification :=
  mk_notification n k l (send_out_of_stock_notification n k l).

(** Lines 49-93 for one record with the truthy id [k]: from
    [previous_state = PRODUCT_STOCK_STATES.get(k)] to the value stored
    under [k] afterwards and the notifications sent, in order.  Every
    assignment of these lines targets the entry of [k], so they are
    collected into the one value written back. *)
Definition product_step (INITIAL_RUN_COMPLETE : bool) (k : Z)
    (previous_state : option state) (p : product) : state * list notification :=
  let product_name := product_name p in
  let permalink_ := product_permalink p in
  let is_currently_out_of_stock := check_product_stock_status p in
  match previous_state with
  | None =>
      let st := mk_state product_name is_currently_out_of_stock permalink_ false in
      if is_currently_out_of_stock && INITIAL_RUN_COMPLETE
      then (set_notified true st, [notify product_name k permalink_])
      else (st, [])
  | Some prev =>
      let '(st1, sent) :=
        if negb (Bool.eqb is_currently_out_of_stock (is_out_of_stock prev)) then
          let st := set_is_out_of_stock is_currently_out_of_stock prev in
          if is_currently_out_of_stock
          then (set_notified true st, [notify product_name k permalink_])
          else (set_notified false st, [])
        else if is_currently_out_of_stock && negb (notified prev)
        then (set_notified true prev, [notify product_name k permalink_])
        else (prev, []) in
      if negb (String.eqb (name prev) product_name)
         || negb (String.eqb (permalink prev) permalink_)
      then (set_name_permalink product_name permalink_ st1, sent)
      else (st1, sent)
  end.

(** The [for product in current_products_api] loop (lines 38-93):
    accumulates [current_cycle_product_ids] (the id is added before the
    truthiness test), the store and the notifications sent. *)
Fixpoint scan (INITIAL_RUN_COMPLETE : bool) (ps : list product)
    (ids : list (option Z)) (s : store) (sent : list notification)
    : list (option Z) * store * list notification :=
  match ps with
  | [] => (ids, s, sent)
  | p :: rest =>
      let ids1 := p_id p :: ids in
      match truthy_id (p_id p) with
      | None => scan INITIAL_RUN_COMPLETE rest ids1 s sent
      | Some k =>
          let '(st, out) := product_step INITIAL_RUN_COMPLETE k (lookup k s) p in
          scan INITIAL_RUN_COMPLETE rest ids1 (set_entry k st s) (sent ++ out)
      end
  end.

(** The post-scan sweep (lines 104-108), in store order. *)
Fixpoint sweep (s : store) : store * list notification :=
  match s with
  | [] => ([], [])
  | (k, st) :: t =>
      let '(t', out) := sweep t in
      if is_out_of_stock st && negb (notified st)
      then ((k, set_notified true st) :: t',
            notify (name st) k (permalink st) :: out)
      else ((k, st) :: t', out)
  end.

(** Lines 113-117: every key not in [current_cycle_product_ids] is deleted. *)
Definition remove_deleted (ids : list (option Z)) (s : store) : store :=
  filter (fun e => mem_id (Some (fst e)) ids) s.

(** [check_and_notify_products], given the value of [wc.get_all_products()];
    returns the new globals and the notifications sent during the run. *)
Definition check_and_notify_products (current_products_api : list product)
    (w : world) : world * list notification :=
  match current_products_api with
  | [] => (w, [])
  | _ :: _ =>
      let '(ids, s1, sent1) :=
        scan (INITIAL_RUN_COMPLETE w) current_products_api [] (PRODUCT_STOCK_STATES w) [] in
      let '(irc, s2, sent2) :=
        if negb (INITIAL_RUN_COMPLETE w)
        then let '(s', out) := sweep s1 in (true, s', sent1 ++ out)
        else (INITIAL_RUN_COMPLETE w, s1, sent1) in
      (mk_world (remove_deleted ids s2) irc, sent2)
  end.

(** Successive runs of the job on a list of snapshots: the final globals and
    the notifications of each run. *)
Fixpoint run_cycles (snaps : list (list product)) (w : world)
    : world * list (list notification) :=
  match snaps with
  | [] => (w, [])
  | snap :: rest =>
      let '(w1, out) := check_and_notify_products snap w in
      let '(w2, outs) := run_cycles rest w1 in
      (w2, out :: outs)
  end.

(** The globals the process can be in: the initial ones, then any run. *)
Inductive reachable : world -> Prop :=
| reachable_init : reachable initial_world
| reachable_run : forall w snap,
    reachable w -> reachable (fst (check_and_notify_products snap w)).

End Engine.

(** Number of notifications sent for product id [k]. *)
Definition count_for (k : Z) (sent : list notification) : nat :=
  List.length (filter (fun n => Z.eqb (n_id n) k) sent).


(** ** Inbound replies (src/telegram_handler.py) *)

(** The fields of a Telegram [Message] that [handle_reply] reads; the
    original post is represented by its message id. *)
Record message := mk_message {
  message_id : Z;
  text : option string;
  reply_to_message : option Z
}.

(** Python's [needle in haystack] on strings. *)
Fixpoint contains (needle haystack : string) : bool :=
  String.prefix needle haystack
  || match haystack with
     | EmptyString => false
     | String _ rest => contains needle rest
     end.

Section Reply.

(** Python's [str.lower]. *)
Variable lower : string -> string.

(** [handle_reply]: [Some (original_post, text)] is the call
    [process_telegram_reply_for_stock_update(original_post, message.text, bot)];
    [None] is a return after logging only. *)
Definition handle_reply (OUT_OF_STOCK_KEYWORD : string) (m : option message)
    : option (Z * string) :=
  match m with
  | None => None
  | Some message =>
      match reply_to_message message with
      | None => None
      | Some original_post =>
          match text message with
          | Some t =>
              if negb (String.eqb t EmptyString)
                 && contains (lower OUT_OF_STOCK_KEYWORD) (lower t)
              then Some (original_post, t)
              else None
          | None => None
          end
      end
  end.

End Reply.

(** [str.lower] on ASCII text. *)
Definition ascii_lower (c : ascii) : ascii :=
  let n := nat_of_ascii c in
  if (Nat.leb 65 n && Nat.leb n 90)%bool then ascii_of_nat (n + 32) else c.

Fixpoint string_lower (s : string) : string :=
  match s with
  | EmptyString => EmptyString
  | String c rest => String (ascii_lower c) (string_lower rest)
  end.

(** Modelled from the spec: [wc.check_product_stock_status], called by
    main.py but absent from woocommerce_handler.py.  The spec's rule:
    out of stock when the API does not report the product in stock, or when
    the lower-cased keyword occurs in the lower-cased name. *)
Definition spec_check_product_stock_status (OUT_OF_STOCK_KEYWORD : string)
    (p : product) : bool :=
  negb (p_in_stock p)
  || contains (string_lower OUT_OF_STOCK_KEYWORD) (string_lower (product_name p)).

(** The invariant of the spec's data model: a notified entry is out of
    stock. *)
Definition notified_implies_out_of_stock (s : store) : Prop :=
  forall k st, In (k, st) s -> notified st = true -> is_out_of_stock st = true.

(** A notification attempt, without the notifier's answer. *)
Definition attempt (n : notification) : string * Z * string :=
  (n_name n, n_id n, n_permalink n).

(** ** Sample inputs *)

Definition widget_link : string := "https://shop.example/widget".

(** The same product reported in stock and out of stock. *)
Definition widget_in : product := mk_product (Some 1) (Some "Widget"%string) (Some widget_link) true.
Definition widget_out : product := mk_product (Some 1) (Some "Widget"%string) (Some widget_link) false.
Definition gadget_in : product := mk_product (Some 2) (Some "Gadget"%string) None true.

(** The spec's classifier with an English keyword. *)
Definition sample_classifier : product -> bool := spec_check_product_stock_status "sold out".

(** Notifiers that always succeed and always fail. *)
Definition notifier_ok : string -> Z -> string -> bool := fun _ _ _ => true.
Definition notifier_fail : string -> Z -> string -> bool := fun _ _ _ => false.

Definition sample_reply (t : string) : message := mk_message 10 (Some t) (Some 7).

(** The globals after a first run in which the widget is out of stock. *)
Definition widget_world : world :=
  fst (check_and_notify_products sample_classifier notifier_ok [widget_out] initial_world).

(** ** Configuration (src/config.py) *)

(** The environment variables the modules read; [os.getenv] gives [None]
    for an unset variable. *)
Record config := mk_config {
  TELEGRAM_BOT_TOKEN : option string;
  WOOCOMMERCE_STORE_URL : option string;
  WOOCOMMERCE_CONSUMER_KEY : option string;
  WOOCOMMERCE_CONSUMER_SECRET : option string;
  TELEGRAM_CHANNEL_ID : option string
}.

(** Python truthiness of [os.getenv(...)]: [None] and [""] are falsy. *)
Definition truthy_str (v : option string) : bool :=
  match v with
  | Some s => negb (String.eqb s EmptyString)
  | None => false
  end.

Definition get_telegram_channel_id (cfg : config) : option string :=
  TELEGRAM_CHANNEL_ID cfg.

(** [validate_basic_config]: [Some missing_vars_details] is the raised
    [ValueError], whose message lists these names; [None] is a normal
    return (the format check on the channel id only logs a warning). *)
Definition validate_basic_config (cfg : config) : option (list string) :=
  let required_vars :=
    [("TELEGRAM_BOT_TOKEN"%string, TELEGRAM_BOT_TOKEN cfg);
     ("WOOCOMMERCE_STORE_URL"%string, WOOCOMMERCE_STORE_URL cfg);
     ("WOOCOMMERCE_CONSUMER_KEY"%string, WOOCOMMERCE_CONSUMER_KEY cfg);
     ("WOOCOMMERCE_CONSUMER_SECRET"%string, WOOCOMMERCE_CONSUMER_SECRET cfg);
     ("TELEGRAM_CHANNEL_ID"%string, get_telegram_channel_id cfg)] in
  let missing_vars_details :=
    map fst (filter (fun kv => negb (truthy_str (snd kv))) required_vars) in
  match missing_vars_details with
  | [] => None
  | _ :: _ => Some missing_vars_details
  end.

(** The start-up guard of src/main.py (lines 151-153): [run_scheduler] is
    started only when this holds. *)
Definition main_config_ok (cfg : config) : bool :=
  forallb truthy_str
    [TELEGRAM_BOT_TOKEN cfg; TELEGRAM_CHANNEL_ID cfg; WOOCOMMERCE_STORE_URL cfg;
     WOOCOMMERCE_CONSUMER_KEY cfg; WOOCOMMERCE_CONSUMER_SECRET cfg].

(** ** Python values and exceptions *)

(** The exceptions the handlers can meet. *)
Inductive py_exc :=
| KeyError | IndexError | TypeError | AttributeError | ValueError
| RequestException | JSONDecodeError.

(** A Python computation: its value, or the exception it raised. *)
Inductive outcome (A : Type) :=
| Ok (a : A)
| Raise (e : py_exc).
Arguments Ok {A} a.
Arguments Raise {A} e.

Definition py_bind {A B : Type} (m : outcome A) (f : A -> outcome B) : outcome B :=
  match m with
  | Ok a => f a
  | Raise e => Raise e
  end.

Notation "x <- m ;; f" := (py_bind m (fun x => f)) (at level 61, m at next level, right associativity).

(** [try: ... except Exception: return None]. *)
Definition try_none {A : Type} (m : outcome (option A)) : option A :=
  match m with
  | Ok r => r
  | Raise _ => None
  end.

(** Python's [str] of an [int]. *)
Definition str_of_Z (z : Z) : string := NilZero.string_of_int (Z.to_int z).

(** ** WooCommerce client (src/woocommerce_handler.py) *)

(** A value returned by [response.json()]: JSON numbers are rationals, an
    object keeps its fields in order. *)
#[warnings="-register-all"]
Inductive jvalue :=
| JNull
| JBool (b : bool)
| JNum (q : Q)
| JStr (s : string)
| JArr (items : list jvalue)
| JObj (fields : list (string * jvalue)).

(** [dict[key]] lookup in a parsed object: [json] keeps the last of
    duplicate keys. *)
Fixpoint obj_get (key : string) (fields : list (string * jvalue)) : option jvalue :=
  match fields with
  | [] => None
  | (k, v) :: rest =>
      match obj_get key rest with
      | Some v' => Some v'
      | None => if String.eqb k key then Some v else None
      end
  end.

(** Python truthiness of a JSON value. *)
Definition jtruthy (v : jvalue) : bool :=
  match v with
  | JNull => false
  | JBool b => b
  | JNum q => negb (Z.eqb (Qnum q) 0)
  | JStr s => negb (String.eqb s EmptyString)
  | JArr l => match l with [] => false | _ => true end
  | JObj f => match f with [] => false | _ => true end
  end.

(** [v[0]]: a list or a string is indexed, a dict has only string keys. *)
Definition getitem_0 (v : jvalue) : outcome jvalue :=
  match v with
  | JArr (x :: _) => Ok x
  | JArr [] => Raise IndexError
  | JStr (String c _) => Ok (JStr (String c EmptyString))
  | JStr EmptyString => Raise IndexError
  | JObj _ => Raise KeyError
  | JNull | JBool _ | JNum _ => Raise TypeError
  end.

(** [v['key']]: only a dict takes a string subscript. *)
Definition getitem_str (v : jvalue) (key : string) : outcome jvalue :=
  match v with
  | JObj f => match obj_get key f with Some x => Ok x | None => Raise KeyError end
  | _ => Raise TypeError
  end.

(** [v.get('key')]: only a dict has [.get]. *)
Definition jget (v : jvalue) (key : string) : outcome (option jvalue) :=
  match v with
  | JObj f => Ok (obj_get key f)
  | _ => Raise AttributeError
  end.

(** The [woocommerce.API] object: its constructor only stores its
    arguments. *)
Record wc_client := mk_wc_client {
  wc_url : string;
  wc_consumer_key : string;
  wc_consumer_secret : string;
  wc_version : string;
  wc_timeout : Z
}.

(** The calls made through the client: [get(endpoint, params=...)],
    [post(endpoint, data)] and [put(endpoint, data)]. *)
Inductive wc_request :=
| WC_GET (endpoint : string) (params : list (string * string))
| WC_POST (endpoint : string) (data : jvalue)
| WC_PUT (endpoint : string) (data : jvalue).

(** A [requests] response: [resp_json] is [None] when [response.json()]
    raises (a body that is not JSON). *)
Record wc_response := mk_wc_response {
  status_code : Z;
  resp_text : string;
  resp_json : option jvalue
}.

Definition json (r : wc_response) : outcome jvalue :=
  match resp_json r with
  | Some v => Ok v
  | None => Raise JSONDecodeError
  end.

(** [get_wc_api_client]. *)
Definition get_wc_api_client (cfg : config) : option wc_client :=
  if truthy_str (WOOCOMMERCE_STORE_URL cfg) && truthy_str (WOOCOMMERCE_CONSUMER_KEY cfg)
     && truthy_str (WOOCOMMERCE_CONSUMER_SECRET cfg) then
    match WOOCOMMERCE_STORE_URL cfg, WOOCOMMERCE_CONSUMER_KEY cfg,
          WOOCOMMERCE_CONSUMER_SECRET cfg with
    | Some u, Some k, Some s => Some (mk_wc_client u k s "wc/v3" 10)
    | _, _, _ => None
    end
  else None.

Section WooCommerce.

(** The store's answer to a call, or the exception [requests] raised. *)
Variable wc_send : wc_client -> wc_request -> outcome wc_response.

(** [test_woocommerce_connection]. *)
Definition test_woocommerce_connection (cfg : config) : bool :=
  match get_wc_api_client cfg with
  | None => false
  | Some wcapi =>
      match
        (response <- wc_send wcapi (WC_GET "" []) ;;
         if Z.eqb (status_code response) 200 then
           store_data <- json response ;;
           _ <- jget store_data "name" ;;
           Ok true
         else Ok false)
      with
      | Ok b => b
      | Raise _ => false
      end
  end.

(** [get_product_by_sku]. *)
Definition get_product_by_sku (cfg : config) (sku : string) : option jvalue :=
  if String.eqb sku EmptyString then None
  else
    match get_wc_api_client cfg with
    | None => None
    | Some wcapi =>
        try_none
          (response <- wc_send wcapi (WC_GET "products" [("sku"%string, sku)]) ;;
           products <- json response ;;
           if Z.eqb (status_code response) 200 && jtruthy products then
             first <- getitem_0 products ;;
             _ <- getitem_str first "name" ;;   (* the log line reads products[0]['name'] *)
             Ok (Some first)
           else Ok None)
    end.

(** [create_woocommerce_product]; [product_data] is the dict sent. *)
Definition create_woocommerce_product (cfg : config) (product_data : list (string * jvalue))
    : option jvalue :=
  match get_wc_api_client cfg with
  | None => None
  | Some wcapi =>
      try_none
        (response <- wc_send wcapi (WC_POST "products" (JObj product_data)) ;;
         if Z.eqb (status_code response) 201 then
           created_product <- json response ;;
           _ <- getitem_str created_product "name" ;;
           _ <- getitem_str created_product "id" ;;
           Ok (Some created_product)
         else Ok None)
  end.

(** [update_woocommerce_product_stock]. *)
Definition update_woocommerce_product_stock (cfg : config) (product_id : Z)
    (stock_status : string) (stock_quantity : Z) : option jvalue :=
  match get_wc_api_client cfg with
  | None => None
  | Some wcapi =>
      let data := JObj [("stock_status"%string, JStr stock_status)] in
      try_none
        (response <- wc_send wcapi (WC_PUT ("products/" ++ str_of_Z product_id) data) ;;
         if Z.eqb (status_code response) 200 then
           updated_product <- json response ;;
           _ <- jget updated_product "stock_status" ;;
           Ok (Some updated_product)
         else Ok None)
  end.

End WooCommerce.

(** ** Telegram application set-up (src/telegram_handler.py) *)







(** ** More sample inputs *)

(** A record without an id, as a draft product would be reported. *)
Definition draft_item : product := mk_product None (Some "Draft"%string) None false.


(** ** The view of one product id

    The run touches the entry of an id [k] only when it processes a record
    whose truthy id is [k], when it sweeps, and when it deletes.  [scan_key]
    follows that one entry through the loop and counts the notifications
    sent for it; [scan_key_spec] shows it agrees with [scan]. *)

Definition is_key (k : Z) (p : product) : bool :=
  match truthy_id (p_id p) with Some j => Z.eqb j k | None => false end.

Definition pending (st : state) : nat := if notified st then 0 else 1.

Definition sweep_state (st : state) : state :=
  if is_out_of_stock st && negb (notified st) then set_notified true st else st.

Definition sweep_count (e : option state) : nat :=
  match e with
  | Some st => if is_out_of_stock st && negb (notified st) then 1 else 0
  | None => 0
  end%nat.

Definition keys (s : store) : list Z := map fst s.

Definition wf (w : world) : Prop := NoDup (keys (PRODUCT_STOCK_STATES w)).

Section KeyView.

Variable check_product_stock_status : product -> bool.
Variable send_out_of_stock_notification : string -> Z -> string -> bool.

Local Abbreviation step := (product_step check_product_stock_status send_out_of_stock_notification).
Local Abbreviation scan_ := (scan check_product_stock_status send_out_of_stock_notification).
Local Abbreviation sweep_ := (sweep send_out_of_stock_notification).
Local Abbreviation cycle := (check_and_notify_products check_product_stock_status send_out_of_stock_notification).

Fixpoint scan_key (irc : bool) (k : Z) (e : option state) (ps : list product)
    : option state * nat :=
  match ps with
  | [] => (e, 0%nat)
  | p :: rest =>
      if is_key k p then
        let '(st, out) := step irc k e p in
        let '(e', n) := scan_key irc k (Some st) rest in
        (e', (List.length out + n)%nat)
      else scan_key irc k e rest
  end.

Definition has_key (k : Z) (ps : list product) : bool := existsb (is_key k) ps.

(** Every record of the id [k] in [ps] is classified [b]. *)
Definition all_key_cls (k : Z) (b : bool) (ps : list product) : Prop :=
  forall p, In p ps -> is_key k p = true -> check_product_stock_status p = b.

(** Notifications still owed for an entry, before a record classified
    out-of-stock is processed. *)
Definition init_pending (e : option state) : nat :=
  match e with
  | Some st => if is_out_of_stock st && notified st then 0 else 1
  | None => 1
  end%nat.

(** One run of [check_and_notify_products] on a non-empty snapshot, seen
    from the id [k]: its entry afterwards and the notifications sent for it. *)
Definition cycle_key (irc : bool) (k : Z) (e : option state) (snap : list product)
    : option state * nat :=
  let '(e1, n1) := scan_key irc k e snap in
  (if mem_id (Some k) (map p_id snap)
   then (if irc then e1 else option_map sweep_state e1) else None,
   (n1 + (if irc then 0 else sweep_count e1))%nat).

Lemma lookup_set_entry (k j : Z) (v : state) (s : store) :
  lookup k (set_entry j v s) = if Z.eqb k j then Some v else lookup k s.
Proof.
  induction s as [|[k' v'] t IH]; simpl.
  - reflexivity.
  - destruct (Z.eqb j k') eqn:Hjk; simpl.
    + apply Z.eqb_eq in Hjk; subst. destruct (Z.eqb k k'); reflexivity.
    + rewrite IH. destruct (Z.eqb k j) eqn:Hkj; [|reflexivity].
      apply Z.eqb_eq in Hkj; subst. rewrite Hjk. reflexivity.
Qed.

Lemma keys_set_entry (j : Z) (v : state) (s : store) (k : Z) :
  In k (keys (set_entry j v s)) <-> k = j \/ In k (keys s).
Proof.
  induction s as [|[k' v'] t IH]; simpl.
  - split; intros [H|H]; subst; auto; contradiction.
  - destruct (Z.eqb j k') eqn:Hjk; simpl.
    + apply Z.eqb_eq in Hjk; subst. split; intros [H|H]; subst; auto.
    + rewrite IH. split; intros [H|H]; subst; auto; destruct H; subst; auto.
Qed.

Lemma NoDup_set_entry (j : Z) (v : state) (s : store) :
  NoDup (keys s) -> NoDup (keys (set_entry j v s)).
Proof.
  induction s as [|[k' v'] t IH]; simpl; intros Hnd.
  - constructor; [simpl; tauto | constructor].
  - inversion Hnd as [|? ? Hnin Hnd']; subst.
    destruct (Z.eqb j k') eqn:Hjk; simpl.
    + constructor; assumption.
    + constructor; [|now apply IH].
      rewrite keys_set_entry. intros [->|Hin]; [|contradiction].
      rewrite Z.eqb_refl in Hjk. discriminate.
Qed.

Lemma lookup_In (k : Z) (st : state) (s : store) :
  lookup k s = Some st -> In (k, st) s.
Proof.
  induction s as [|[k' v'] t IH]; simpl; [discriminate|].
  destruct (Z.eqb k k') eqn:E; intros H.
  - apply Z.eqb_eq in E; subst. injection H as ->. left; reflexivity.
  - right; auto.
Qed.

Lemma lookup_None_keys (k : Z) (s : store) :
  lookup k s = None <-> ~ In k (keys s).
Proof.
  induction s as [|[k' v'] t IH]; simpl; [tauto|].
  destruct (Z.eqb k k') eqn:E.
  - apply Z.eqb_eq in E; subst. split; [discriminate|]. intros H; exfalso; auto.
  - apply Z.eqb_neq in E. rewrite IH. split; intros H; [intros [->|?]|]; auto.
Qed.

Lemma count_for_app (k : Z) (l1 l2 : list notification) :
  count_for k (l1 ++ l2) = (count_for k l1 + count_for k l2)%nat.
Proof. unfold count_for. rewrite filter_app, length_app. reflexivity. Qed.

(** Every notification sent while processing a record is about its id. *)
Lemma step_sent_id (irc : bool) (k : Z) (e : option state) (p : product) :
  forall n, In n (snd (step irc k e p)) -> n_id n = k.
Proof.
  unfold product_step.
  destruct e as [prev|].
  - destruct (negb (Bool.eqb (check_product_stock_status p) (is_out_of_stock prev))),
      (check_product_stock_status p), (notified prev);
      destruct (negb (String.eqb _ _) || negb (String.eqb _ _));
      simpl; intros n H; intuition; subst; reflexivity.
  - destruct (check_product_stock_status p && irc); simpl; intros n H;
      intuition; subst; reflexivity.
Qed.

Lemma count_for_same_id (k j : Z) (l : list notification) :
  (forall n, In n l -> n_id n = k) ->
  count_for j l = if Z.eqb k j then List.length l else 0%nat.
Proof.
  induction l as [|n l IHl]; intros H; simpl.
  - destruct (Z.eqb k j); reflexivity.
  - unfold count_for in *; simpl.
    rewrite (H n (or_introl eq_refl)).
    assert (IH := IHl (fun m Hm => H m (or_intror Hm))).
    destruct (Z.eqb k j); simpl; rewrite IH; reflexivity.
Qed.

Lemma count_for_step (irc : bool) (k j : Z) (e : option state) (p : product) :
  count_for j (snd (step irc k e p))
  = if Z.eqb k j then List.length (snd (step irc k e p)) else 0%nat.
Proof. apply count_for_same_id, step_sent_id. Qed.

Lemma scan_key_skip (irc : bool) (k : Z) (e : option state) (p : product) (rest : list product) :
  is_key k p = false -> scan_key irc k e (p :: rest) = scan_key irc k e rest.
Proof. simpl. intros ->. reflexivity. Qed.

Lemma is_key_truthy (k : Z) (p : product) :
  is_key k p = true <-> truthy_id (p_id p) = Some k.
Proof.
  unfold is_key. destruct (truthy_id (p_id p)) as [j|].
  - rewrite Z.eqb_eq. split; [intros ->|intros H; injection H]; auto.
  - split; discriminate.
Qed.

(** [scan] seen from one id. *)
Lemma scan_spec (irc : bool) (ps : list product) :
  forall ids s sent,
    let r := scan_ irc ps ids s sent in
    fst (fst r) = rev (map p_id ps) ++ ids
    /\ (forall k, lookup k (snd (fst r)) = fst (scan_key irc k (lookup k s) ps))
    /\ (forall k, count_for k (snd r)
                  = (count_for k sent + snd (scan_key irc k (lookup k s) ps))%nat).
Proof.
  induction ps as [|p rest IH]; intros ids s sent; simpl.
  - repeat split; intros; lia.
  - unfold is_key at 1 2. destruct (truthy_id (p_id p)) as [j|] eqn:Ht.
    + destruct (step irc j (lookup j s) p) as [st out] eqn:Hs.
      destruct (IH (p_id p :: ids) (set_entry j st s) (sent ++ out)) as (H1 & H2 & H3).
      split; [|split].
      * rewrite H1, <- app_assoc. reflexivity.
      * intros k. rewrite H2, lookup_set_entry.
        destruct (Z.eqb k j) eqn:Ekj.
        -- apply Z.eqb_eq in Ekj; subst. rewrite Z.eqb_refl, Hs.
           destruct (scan_key irc j (Some st) rest); reflexivity.
        -- rewrite Z.eqb_sym, Ekj. reflexivity.
      * intros k. rewrite H3, lookup_set_entry, count_for_app.
        pose proof (count_for_step irc j k (lookup j s) p) as Hc. rewrite Hs in Hc; simpl in Hc.
        rewrite Hc. destruct (Z.eqb k j) eqn:Ekj.
        -- apply Z.eqb_eq in Ekj; subst. rewrite Z.eqb_refl, Hs.
           destruct (scan_key irc j (Some st) rest); simpl; lia.
        -- rewrite Z.eqb_sym, Ekj. lia.
    + destruct (IH (p_id p :: ids) s sent) as (H1 & H2 & H3).
      split; [|split]; auto.
      rewrite H1, <- app_assoc. reflexivity.
Qed.

Lemma scan_keys (irc : bool) (ps : list product) :
  forall ids s sent j,
    In j (keys (snd (fst (scan_ irc ps ids s sent))))
    <-> In j (keys s) \/ exists p, In p ps /\ truthy_id (p_id p) = Some j.
Proof.
  induction ps as [|p rest IH]; intros ids s sent j; simpl.
  - split; [auto|intros [H|[p [[] _]]]; assumption].
  - destruct (truthy_id (p_id p)) as [i|] eqn:Ht.
    + destruct (step irc i (lookup i s) p) as [st out].
      rewrite IH, keys_set_entry. split.
      * intros [[->|H]|[q [Hq Hqt]]]; eauto.
      * intros [H|[q [[<-|Hq] Hqt]]]; eauto.
        rewrite Ht in Hqt. injection Hqt as ->. auto.
    + rewrite IH. split.
      * intros [H|[q [Hq Hqt]]]; eauto.
      * intros [H|[q [[<-|Hq] Hqt]]]; eauto.
        rewrite Ht in Hqt. discriminate.
Qed.

Lemma scan_NoDup (irc : bool) (ps : list product) :
  forall ids s sent,
    NoDup (keys s) -> NoDup (keys (snd (fst (scan_ irc ps ids s sent)))).
Proof.
  induction ps as [|p rest IH]; intros ids s sent Hnd; simpl; auto.
  destruct (truthy_id (p_id p)) as [i|]; auto.
  destruct (step irc i (lookup i s) p) as [st out].
  apply IH, NoDup_set_entry, Hnd.
Qed.

Lemma sweep_keys (s : store) : keys (fst (sweep_ s)) = keys s.
Proof.
  induction s as [|[k st] t IH]; simpl; auto.
  destruct (sweep_ t) as [t' out]; simpl in *.
  destruct (is_out_of_stock st && negb (notified st)); simpl; rewrite IH; reflexivity.
Qed.

Lemma lookup_sweep (k : Z) (s : store) :
  lookup k (fst (sweep_ s)) = option_map sweep_state (lookup k s).
Proof.
  induction s as [|[k' st] t IH]; simpl; auto.
  destruct (sweep_ t) as [t' out]; simpl in *.
  unfold sweep_state in *.
  destruct (is_out_of_stock st && negb (notified st)) eqn:Hc; simpl;
    destruct (Z.eqb k k'); simpl; rewrite ?Hc; auto.
Qed.

Lemma sweep_sent_id (s : store) (k : Z) :
  ~ In k (keys s) -> count_for k (snd (sweep_ s)) = 0%nat.
Proof.
  induction s as [|[k' st] t IH]; simpl; auto.
  intros Hn. destruct (sweep_ t) as [t' out]; simpl in *.
  destruct (is_out_of_stock st && negb (notified st)); simpl; [|auto].
  unfold count_for in *; simpl.
  destruct (Z.eqb k' k) eqn:E; [apply Z.eqb_eq in E; subst; tauto|].
  auto.
Qed.

Lemma sweep_count_for (k : Z) (s : store) :
  NoDup (keys s) -> count_for k (snd (sweep_ s)) = sweep_count (lookup k s).
Proof.
  induction s as [|[k' st] t IH]; simpl; intros Hnd; auto.
  inversion Hnd as [|? ? Hnin Hnd']; subst.
  pose proof (sweep_sent_id t k') as Hz.
  destruct (sweep_ t) as [t' out] eqn:Ht; simpl in *.
  rewrite Z.eqb_sym.
  destruct (Z.eqb k' k) eqn:E.
  - apply Z.eqb_eq in E; subst.
    specialize (Hz Hnin). unfold count_for in *.
    destruct (is_out_of_stock st && negb (notified st)) eqn:Hc; simpl;
      rewrite ?Z.eqb_refl; simpl; rewrite Hz, ?Hc; reflexivity.
  - destruct (is_out_of_stock st && negb (notified st)); simpl;
      unfold count_for in *; simpl; try rewrite E; auto.
Qed.

Lemma lookup_remove_deleted (k : Z) (ids : list (option Z)) (s : store) :
  lookup k (remove_deleted ids s)
  = if mem_id (Some k) ids then lookup k s else None.
Proof.
  unfold remove_deleted.
  induction s as [|[k' st] t IH]; simpl.
  - destruct (mem_id (Some k) ids); reflexivity.
  - destruct (mem_id (Some k') ids) eqn:Hm; simpl;
      destruct (Z.eqb k k') eqn:E; rewrite ?IH; auto.
    + apply Z.eqb_eq in E; subst. rewrite Hm. reflexivity.
    + apply Z.eqb_eq in E; subst. rewrite Hm. reflexivity.
Qed.

Lemma keys_remove_deleted (k : Z) (ids : list (option Z)) (s : store) :
  In k (keys (remove_deleted ids s)) <-> In k (keys s) /\ mem_id (Some k) ids = true.
Proof.
  unfold remove_deleted, keys. rewrite !in_map_iff. split.
  - intros [[k' st] [Hk Hin]]; simpl in Hk; subst.
    apply filter_In in Hin as [Hin Hm]. split; [exists (k, st); auto|exact Hm].
  - intros [[[k' st] [Hk Hin]] Hm]; simpl in Hk; subst.
    exists (k, st). split; [reflexivity|]. apply filter_In. auto.
Qed.

Lemma NoDup_remove_deleted (ids : list (option Z)) (s : store) :
  NoDup (keys s) -> NoDup (keys (remove_deleted ids s)).
Proof.
  unfold remove_deleted, keys.
  induction s as [|[k st] t IH]; simpl; intros Hnd; auto.
  inversion Hnd as [|? ? Hnin Hnd']; subst.
  destruct (mem_id (Some k) ids); simpl; auto.
  constructor; auto. intros Hin. apply Hnin.
  rewrite in_map_iff in *. destruct Hin as [x [Hx Hin]].
  apply filter_In in Hin as [Hin _]. eauto.
Qed.

Lemma mem_id_rev_app (i : option Z) (l : list (option Z)) :
  mem_id i (rev l ++ []) = mem_id i l.
Proof.
  rewrite app_nil_r. unfold mem_id.
  apply Bool.eq_true_iff_eq. rewrite !existsb_exists.
  split; intros [x [Hx Hf]]; exists x; split; auto;
    [apply in_rev|apply in_rev in Hx]; auto.
Qed.


Lemma cycle_spec (snap : list product) (w : world) :
  snap <> [] -> wf w ->
  let r := cycle snap w in
  INITIAL_RUN_COMPLETE (fst r) = true
  /\ wf (fst r)
  /\ (forall k, lookup k (PRODUCT_STOCK_STATES (fst r))
               = fst (cycle_key (INITIAL_RUN_COMPLETE w) k
                        (lookup k (PRODUCT_STOCK_STATES w)) snap))
  /\ (forall k, count_for k (snd r)
               = snd (cycle_key (INITIAL_RUN_COMPLETE w) k
                        (lookup k (PRODUCT_STOCK_STATES w)) snap)).
Proof.
  intros Hne Hwf. destruct w as [s0 irc]. unfold wf in *; cbn [PRODUCT_STOCK_STATES INITIAL_RUN_COMPLETE] in *.
  pose proof (scan_spec irc snap [] s0 []) as (H1 & H2 & H3).
  pose proof (scan_NoDup irc snap [] s0 [] Hwf) as Hnd1.
  unfold check_and_notify_products. cbn [INITIAL_RUN_COMPLETE PRODUCT_STOCK_STATES].
  destruct (scan_ irc snap [] s0 []) as [[ids s1] sent1] eqn:Hscan.
  cbn [fst snd] in H1, H2, H3, Hnd1.
  destruct snap as [|p0 rest]; [congruence|].
  unfold cycle_key.
  destruct irc; cbn [negb fst snd INITIAL_RUN_COMPLETE PRODUCT_STOCK_STATES].
  - split; [reflexivity|split; [apply NoDup_remove_deleted; exact Hnd1|split]].
    + intros k. rewrite lookup_remove_deleted, H1, mem_id_rev_app, H2.
      destruct (scan_key true k (lookup k s0) (p0 :: rest)); reflexivity.
    + intros k. rewrite H3. change (count_for k []) with 0%nat.
      destruct (scan_key true k (lookup k s0) (p0 :: rest)); cbn [snd]; lia.
  - destruct (sweep_ s1) as [s2 out] eqn:Hsw; cbn [fst snd INITIAL_RUN_COMPLETE PRODUCT_STOCK_STATES].
    split; [reflexivity|split; [|split]].
    + apply NoDup_remove_deleted.
      replace s2 with (fst (sweep_ s1)) by (rewrite Hsw; reflexivity).
      rewrite sweep_keys. exact Hnd1.
    + intros k. rewrite lookup_remove_deleted, H1, mem_id_rev_app.
      replace s2 with (fst (sweep_ s1)) by (rewrite Hsw; reflexivity).
      rewrite lookup_sweep, H2.
      destruct (scan_key false k (lookup k s0) (p0 :: rest)); reflexivity.
    + intros k. rewrite count_for_app, H3.
      replace out with (snd (sweep_ s1)) by (rewrite Hsw; reflexivity).
      rewrite sweep_count_for by exact Hnd1. rewrite H2.
      change (count_for k []) with 0%nat.
      destruct (scan_key false k (lookup k s0) (p0 :: rest)); cbn [fst snd]; lia.
Qed.


Lemma all_key_cls_tail (k : Z) (b : bool) (p : product) (ps : list product) :
  all_key_cls k b (p :: ps) -> all_key_cls k b ps.
Proof. intros H q Hq. apply H. right. exact Hq. Qed.

Ltac step_cases H e irc :=
  unfold product_step; rewrite H;
  destruct e as [[? [|] ? [|]]|]; destruct irc; cbn;
  try destruct (negb (String.eqb _ _) || negb (String.eqb _ _)); cbn.

Lemma step_false (irc : bool) (k : Z) (e : option state) (p : product) :
  check_product_stock_status p = false ->
  is_out_of_stock (fst (step irc k e p)) = false /\ snd (step irc k e p) = [].
Proof. intros H. step_cases H e irc; auto. Qed.

Lemma step_true (irc : bool) (k : Z) (e : option state) (p : product) :
  check_product_stock_status p = true ->
  is_out_of_stock (fst (step irc k e p)) = true
  /\ (List.length (snd (step irc k e p)) + pending (fst (step irc k e p)) = init_pending e)%nat
  /\ (irc = true \/ e <> None -> notified (fst (step irc k e p)) = true).
Proof.
  intros H. step_cases H e irc; unfold pending; cbn;
    (split; [reflexivity|split; [reflexivity|]]);
    first [intros _; reflexivity | intros [Hc|Hc]; [discriminate|exfalso; apply Hc; reflexivity]].
Qed.

Lemma scan_key_none (irc : bool) (k : Z) (e : option state) (ps : list product) :
  has_key k ps = false -> scan_key irc k e ps = (e, 0%nat).
Proof.
  induction ps as [|p rest IH]; simpl; auto.
  unfold has_key in *; simpl. intros H. apply orb_false_iff in H as [H1 H2].
  rewrite H1. auto.
Qed.

Lemma scan_key_false (irc : bool) (k : Z) (ps : list product) :
  all_key_cls k false ps ->
  forall e, snd (scan_key irc k e ps) = 0%nat
  /\ (has_key k ps = true ->
      exists st, fst (scan_key irc k e ps) = Some st /\ is_out_of_stock st = false).
Proof.
  induction ps as [|p rest IH]; intros Hall e; simpl.
  - split; [reflexivity|discriminate].
  - specialize (IH (all_key_cls_tail _ _ _ _ Hall)).
    unfold has_key; simpl; fold (has_key k rest).
    destruct (is_key k p) eqn:Hk; simpl; [|apply IH].
    pose proof (step_false irc k e p (Hall p (or_introl eq_refl) Hk)) as [Ho Hs].
    destruct (step irc k e p) as [st out]; cbn in Ho, Hs; subst out.
    destruct (IH (Some st)) as [Hn Hh].
    destruct (scan_key irc k (Some st) rest) as [e' n] eqn:Hsk; cbn in *.
    split; [lia|intros _].
    destruct (has_key k rest) eqn:Hr; [apply Hh; reflexivity|].
    rewrite scan_key_none in Hsk by exact Hr. injection Hsk as <- _. eauto.
Qed.

Lemma scan_key_true_from (irc : bool) (k : Z) (ps : list product) :
  all_key_cls k true ps ->
  forall st, is_out_of_stock st = true ->
  exists st', fst (scan_key irc k (Some st) ps) = Some st'
    /\ is_out_of_stock st' = true
    /\ (snd (scan_key irc k (Some st) ps) + pending st' = pending st)%nat
    /\ (has_key k ps = true -> notified st' = true).
Proof.
  induction ps as [|p rest IH]; intros Hall st Ho.
  - exists st. cbn [scan_key fst snd]. repeat split; auto. discriminate.
  - specialize (IH (all_key_cls_tail _ _ _ _ Hall)).
    unfold has_key; cbn [existsb]; fold (has_key k rest).
    cbn [scan_key].
    destruct (is_key k p) eqn:Hk; cbn [orb]; [|apply IH; exact Ho].
    pose proof (step_true irc k (Some st) p (Hall p (or_introl eq_refl) Hk)) as (Ho1 & Hc1 & Hn1).
    assert (Hne : Some st <> None) by discriminate.
    specialize (Hn1 (or_intror Hne)).
    destruct (step irc k (Some st) p) as [st1 out]; cbn [fst snd] in Ho1, Hc1, Hn1.
    destruct (IH st1 Ho1) as (st' & He & Ho' & Hc' & _).
    destruct (scan_key irc k (Some st1) rest) as [e' n]; cbn [fst snd] in *.
    exists st'. unfold pending, init_pending in *. rewrite Hn1 in Hc', Hc1.
    rewrite Ho in Hc1.
    destruct (notified st'); [|cbn in Hc'; lia].
    split; [exact He|split; [exact Ho'|split; [|intros _; reflexivity]]].
    destruct (notified st); cbn in *; lia.
Qed.

Lemma scan_key_true (irc : bool) (k : Z) (ps : list product) :
  all_key_cls k true ps -> has_key k ps = true ->
  forall e, exists st', fst (scan_key irc k e ps) = Some st'
    /\ is_out_of_stock st' = true
    /\ (snd (scan_key irc k e ps) + pending st' = init_pending e)%nat
    /\ (irc = true \/ e <> None -> notified st' = true).
Proof.
  induction ps as [|p rest IH]; intros Hall Hh e; [discriminate|].
  specialize (IH (all_key_cls_tail _ _ _ _ Hall)).
  unfold has_key in Hh; cbn [existsb] in Hh; fold (has_key k rest) in Hh.
  cbn [scan_key].
  destruct (is_key k p) eqn:Hk; cbn [orb] in Hh; [|apply IH; exact Hh].
  pose proof (step_true irc k e p (Hall p (or_introl eq_refl) Hk)) as (Ho1 & Hc1 & Hn1).
  destruct (step irc k e p) as [st1 out]; cbn [fst snd] in Ho1, Hc1, Hn1.
  destruct (scan_key_true_from irc k rest (all_key_cls_tail _ _ _ _ Hall) st1 Ho1)
    as (st' & He & Ho' & Hc' & _).
  destruct (scan_key irc k (Some st1) rest) as [e' n]; cbn [fst snd] in *.
  exists st'. split; [exact He|split; [exact Ho'|split; [lia|]]].
  intros Hc. specialize (Hn1 Hc). unfold pending in *. rewrite Hn1 in Hc'.
  destruct (notified st'); [reflexivity|cbn in Hc'; lia].
Qed.

Lemma In_set_entry (k j : Z) (v st : state) (s : store) :
  In (j, st) (set_entry k v s) -> (j, st) = (k, v) \/ In (j, st) s.
Proof.
  induction s as [|[k' v'] t IH]; simpl.
  - intros [H|[]]. left; congruence.
  - destruct (Z.eqb k k') eqn:E; simpl.
    + apply Z.eqb_eq in E; subst. intros [H|H]; [left; congruence|auto].
    + intros [H|H]; [auto|]. destruct (IH H); auto.
Qed.

Lemma step_inv (irc : bool) (k : Z) (e : option state) (p : product) :
  (forall prev, e = Some prev -> notified prev = true -> is_out_of_stock prev = true) ->
  notified (fst (step irc k e p)) = true -> is_out_of_stock (fst (step irc k e p)) = true.
Proof.
  intros He.
  destruct (check_product_stock_status p) eqn:H.
  - apply (step_true irc k e p) in H as [H _]. auto.
  - destruct e as [[n0 [|] l0 [|]]|]; unfold product_step; rewrite H; destruct irc; cbn;
      try destruct (negb (String.eqb _ _) || negb (String.eqb _ _)); cbn; auto;
      intros Hn; specialize (He _ eq_refl); cbn in He; auto.
Qed.

Lemma scan_inv (irc : bool) (ps : list product) :
  forall ids s sent,
    notified_implies_out_of_stock s ->
    notified_implies_out_of_stock (snd (fst (scan_ irc ps ids s sent))).
Proof.
  induction ps as [|p rest IH]; intros ids s sent Hs; cbn [scan]; auto.
  destruct (truthy_id (p_id p)) as [i|]; auto.
  pose proof (step_inv irc i (lookup i s) p) as Hst.
  destruct (step irc i (lookup i s) p) as [st out]; cbn [fst] in Hst.
  apply IH. intros j st' Hin Hn.
  apply In_set_entry in Hin as [Heq|Hin].
  - injection Heq as -> ->. apply Hst; auto.
    intros prev Hl. apply lookup_In in Hl. eauto.
  - eauto.
Qed.

Lemma sweep_inv (s : store) :
  notified_implies_out_of_stock s -> notified_implies_out_of_stock (fst (sweep_ s)).
Proof.
  unfold notified_implies_out_of_stock.
  induction s as [|[k st] t IH]; cbn [sweep]; intros Hs; auto.
  assert (Ht : forall k0 st0, In (k0, st0) t -> notified st0 = true -> is_out_of_stock st0 = true)
    by (intros; eapply Hs; [right|]; eauto).
  specialize (IH Ht).
  destruct (sweep_ t) as [t' out]; cbn [fst] in *.
  destruct (is_out_of_stock st && negb (notified st)) eqn:Hc; cbn [fst];
    intros j st' [Heq|Hin] Hn; eauto.
  - injection Heq as -> <-. apply andb_true_iff in Hc as [Hc _]. exact Hc.
  - injection Heq as -> <-. eapply Hs; [left; reflexivity|exact Hn].
Qed.

Lemma cycle_inv (snap : list product) (w : world) :
  notified_implies_out_of_stock (PRODUCT_STOCK_STATES w) ->
  notified_implies_out_of_stock (PRODUCT_STOCK_STATES (fst (cycle snap w))).
Proof.
  intros Hw. unfold check_and_notify_products.
  destruct snap as [|p0 rest]; [exact Hw|].
  pose proof (scan_inv (INITIAL_RUN_COMPLETE w) (p0 :: rest) [] (PRODUCT_STOCK_STATES w) [] Hw) as H1.
  destruct (scan_ (INITIAL_RUN_COMPLETE w) (p0 :: rest) [] (PRODUCT_STOCK_STATES w) [])
    as [[ids s1] sent1]; cbn [fst snd] in H1.
  assert (Hf : forall s, notified_implies_out_of_stock s ->
                 notified_implies_out_of_stock (remove_deleted ids s)).
  { intros s Hs j st Hin. apply filter_In in Hin as [Hin _]. eauto. }
  destruct (negb (INITIAL_RUN_COMPLETE w)).
  - pose proof (sweep_inv s1 H1) as H2.
    destruct (sweep_ s1) as [s2 out]; cbn [fst] in *. apply Hf, H2.
  - apply Hf, H1.
Qed.

Lemma reachable_inv (w : world) :
  reachable check_product_stock_status send_out_of_stock_notification w ->
  notified_implies_out_of_stock (PRODUCT_STOCK_STATES w).
Proof.
  induction 1.
  - intros k st [].
  - apply cycle_inv. assumption.
Qed.

Lemma mem_id_map (k : Z) (ps : list product) :
  mem_id (Some k) (map p_id ps) = true <-> exists p, In p ps /\ p_id p = Some k.
Proof.
  unfold mem_id. rewrite existsb_exists. split.
  - intros [x [Hx Hk]]. apply in_map_iff in Hx as [p [<- Hp]].
    exists p. split; [exact Hp|]. destruct (p_id p); [|discriminate].
    apply Z.eqb_eq in Hk; subst; reflexivity.
  - intros [p [Hp Hk]]. exists (p_id p). split; [apply in_map; exact Hp|].
    rewrite Hk. apply Z.eqb_refl.
Qed.

Lemma has_key_In (k : Z) (ps : list product) :
  has_key k ps = true <-> exists p, In p ps /\ truthy_id (p_id p) = Some k.
Proof.
  unfold has_key. rewrite existsb_exists. split.
  - intros [p [Hp Hk]]. exists p. split; [exact Hp|]. apply is_key_truthy, Hk.
  - intros [p [Hp Hk]]. exists p. split; [exact Hp|]. apply is_key_truthy, Hk.
Qed.

Lemma truthy_id_Some (i : option Z) (k : Z) :
  truthy_id i = Some k <-> i = Some k /\ k <> 0.
Proof.
  destruct i as [j|]; cbn; [|split; [discriminate|intros [H _]; discriminate]].
  destruct (Z.eqb j 0) eqn:E.
  - apply Z.eqb_eq in E; subst. split; [discriminate|intros [H1 H2]; congruence].
  - apply Z.eqb_neq in E. split; [intros H; injection H as ->; auto|intros [H _]; congruence].
Qed.

Lemma has_key_mem (k : Z) (ps : list product) :
  has_key k ps = true -> mem_id (Some k) (map p_id ps) = true.
Proof.
  rewrite has_key_In, mem_id_map. intros [p [Hp Hk]].
  apply truthy_id_Some in Hk as [Hk _]. eauto.
Qed.

Lemma has_key_nonempty (k : Z) (ps : list product) : has_key k ps = true -> ps <> [].
Proof. destruct ps; [discriminate|intros _; discriminate]. Qed.

Lemma count_for_nil (l : list notification) : (forall k, count_for k l = 0%nat) -> l = [].
Proof.
  destruct l as [|n l]; [reflexivity|]. intros H. specialize (H (n_id n)).
  unfold count_for in H. cbn in H. rewrite Z.eqb_refl in H. discriminate.
Qed.

Lemma cycle_key_false (snap : list product) (w : world) (k : Z) :
  wf w -> has_key k snap = true -> all_key_cls k false snap ->
  let r := cycle snap w in
  count_for k (snd r) = 0%nat
  /\ exists st, lookup k (PRODUCT_STOCK_STATES (fst r)) = Some st /\ is_out_of_stock st = false.
Proof.
  intros Hwf Hh Hall.
  destruct (cycle_spec snap w (has_key_nonempty k snap Hh) Hwf) as (_ & _ & Hl & Hc).
  cbv zeta. rewrite Hl, Hc. unfold cycle_key. rewrite (has_key_mem k snap Hh).
  destruct (scan_key_false (INITIAL_RUN_COMPLETE w) k snap Hall
              (lookup k (PRODUCT_STOCK_STATES w))) as [Hn Hs].
  destruct (Hs Hh) as [st [He Ho]].
  destruct (scan_key (INITIAL_RUN_COMPLETE w) k (lookup k (PRODUCT_STOCK_STATES w)) snap)
    as [e1 n1]; cbn [fst snd] in *; subst e1 n1.
  destruct (INITIAL_RUN_COMPLETE w); cbn.
  - split; [reflexivity|eauto].
  - unfold sweep_state. rewrite Ho. cbn. split; [reflexivity|eauto].
Qed.

Lemma cycle_key_true (snap : list product) (w : world) (k : Z) :
  wf w -> has_key k snap = true -> all_key_cls k true snap ->
  let r := cycle snap w in
  count_for k (snd r) = init_pending (lookup k (PRODUCT_STOCK_STATES w))
  /\ exists st, lookup k (PRODUCT_STOCK_STATES (fst r)) = Some st
         /\ is_out_of_stock st = true /\ notified st = true.
Proof.
  intros Hwf Hh Hall.
  destruct (cycle_spec snap w (has_key_nonempty k snap Hh) Hwf) as (_ & _ & Hl & Hc).
  cbv zeta. rewrite Hl, Hc. unfold cycle_key. rewrite (has_key_mem k snap Hh).
  destruct (scan_key_true (INITIAL_RUN_COMPLETE w) k snap Hall Hh
              (lookup k (PRODUCT_STOCK_STATES w))) as (st & He & Ho & Hn & Hnot).
  remember (init_pending (lookup k (PRODUCT_STOCK_STATES w))) as ip eqn:Eip.
  destruct (scan_key (INITIAL_RUN_COMPLETE w) k (lookup k (PRODUCT_STOCK_STATES w)) snap)
    as [e1 n1]; cbn [fst snd] in *; subst e1.
  destruct (INITIAL_RUN_COMPLETE w); cbn [negb option_map].
  - specialize (Hnot (or_introl eq_refl)). unfold pending in Hn. rewrite Hnot in Hn.
    split; [lia|eauto].
  - unfold sweep_state, sweep_count, pending in *. rewrite Ho in *.
    destruct (notified st) eqn:Hnst; cbn [negb andb] in *.
    + split; [lia|eauto].
    + split; [lia|]. eexists; split; [reflexivity|]. cbn. auto.
Qed.

Lemma cycle_key_absent (snap : list product) (w : world) (k : Z) :
  wf w -> snap <> [] -> has_key k snap = false -> INITIAL_RUN_COMPLETE w = true ->
  count_for k (snd (cycle snap w)) = 0%nat.
Proof.
  intros Hwf Hne Hh Hirc.
  destruct (cycle_spec snap w Hne Hwf) as (_ & _ & _ & Hc).
  rewrite Hc. unfold cycle_key. rewrite Hirc, scan_key_none by exact Hh.
  reflexivity.
Qed.

Lemma filter_nil_has_key (k : Z) (ps : list product) :
  List.length (filter (is_key k) ps) = 0%nat -> has_key k ps = false.
Proof.
  induction ps as [|p rest IH]; cbn; auto.
  unfold has_key in *; cbn.
  destruct (is_key k p); cbn; [discriminate|auto].
Qed.

Lemma scan_key_one (k : Z) (ps : list product) :
  List.length (filter (is_key k) ps) = 1%nat -> all_key_cls k true ps ->
  exists st, scan_key false k None ps = (Some st, 0%nat)
    /\ is_out_of_stock st = true /\ notified st = false.
Proof.
  induction ps as [|p rest IH]; intros Hl Hall; [discriminate|].
  cbn [filter] in Hl. cbn [scan_key].
  destruct (is_key k p) eqn:Hk; cbn [List.length] in Hl.
  - injection Hl as Hl.
    pose proof (Hall p (or_introl eq_refl) Hk) as Hc.
    unfold product_step. rewrite Hc. cbn -[scan_key].
    rewrite scan_key_none by (apply filter_nil_has_key; exact Hl).
    eexists; split; [reflexivity|split; reflexivity].
  - apply IH; [exact Hl|exact (all_key_cls_tail _ _ _ _ Hall)].
Qed.

End KeyView.

(** ** Strings *)

Lemma prefix_spec (a b : string) :
  String.prefix a b = true <-> exists post, b = (a ++ post)%string.
Proof.
  revert b. induction a as [|c a IH]; intros b.
  - destruct b; cbn; (split; [intros _; eexists; reflexivity|reflexivity]).
  - destruct b as [|d b].
    + cbn. split; [discriminate|intros [post H]; discriminate].
    + cbn. destruct (ascii_dec c d) as [->|Hne].
      * rewrite IH. split; intros [post H]; exists post; [rewrite H|injection H]; auto.
      * split; [discriminate|intros [post H]; injection H; intros; congruence].
Qed.

Lemma contains_spec (a b : string) :
  contains a b = true <-> exists pre post, b = (pre ++ a ++ post)%string.
Proof.
  induction b as [|c b IH].
  - change (contains a EmptyString) with (String.prefix a EmptyString || false).
    rewrite orb_false_r, prefix_spec. split.
    + intros [post H]. exists EmptyString, post. exact H.
    + intros [pre [post H]]. destruct pre; [exists post; exact H|discriminate].
  - change (contains a (String c b)) with (String.prefix a (String c b) || contains a b).
    rewrite orb_true_iff, prefix_spec, IH. split.
    + intros [[post H]|[pre [post H]]].
      * exists EmptyString, post. exact H.
      * exists (String c pre), post. rewrite H. reflexivity.
    + intros [[|c' pre] [post H]].
      * left. exists post. exact H.
      * right. injection H as _ H. eauto.
Qed.

(** ** The notifier's answer is never read *)

Lemma step_attempts (cls : product -> bool) (n1 n2 : string -> Z -> string -> bool)
    (irc : bool) (k : Z) (e : option state) (p : product) :
  fst (product_step cls n1 irc k e p) = fst (product_step cls n2 irc k e p)
  /\ map attempt (snd (product_step cls n1 irc k e p))
     = map attempt (snd (product_step cls n2 irc k e p)).
Proof.
  destruct (cls p) eqn:H; destruct e as [[? [|] ? [|]]|]; destruct irc;
    unfold product_step; rewrite H; cbn;
    try destruct (negb (String.eqb _ _) || negb (String.eqb _ _)); split; reflexivity.
Qed.

Lemma scan_attempts (cls : product -> bool) (n1 n2 : string -> Z -> string -> bool)
    (irc : bool) (ps : list product) :
  forall ids s sent1 sent2,
    map attempt sent1 = map attempt sent2 ->
    fst (scan cls n1 irc ps ids s sent1) = fst (scan cls n2 irc ps ids s sent2)
    /\ map attempt (snd (scan cls n1 irc ps ids s sent1))
       = map attempt (snd (scan cls n2 irc ps ids s sent2)).
Proof.
  induction ps as [|p rest IH]; intros ids s sent1 sent2 Hs; cbn [scan]; auto.
  destruct (truthy_id (p_id p)) as [k|]; auto.
  destruct (step_attempts cls n1 n2 irc k (lookup k s) p) as [Hf Hm].
  destruct (product_step cls n1 irc k (lookup k s) p) as [st1 o1].
  destruct (product_step cls n2 irc k (lookup k s) p) as [st2 o2].
  cbn [fst snd] in Hf, Hm. subst st2.
  apply IH. rewrite !map_app, Hs, Hm. reflexivity.
Qed.

Lemma sweep_attempts (n1 n2 : string -> Z -> string -> bool) (s : store) :
  fst (sweep n1 s) = fst (sweep n2 s)
  /\ map attempt (snd (sweep n1 s)) = map attempt (snd (sweep n2 s)).
Proof.
  induction s as [|[k st] t [IH1 IH2]]; cbn [sweep]; auto.
  destruct (sweep n1 t) as [t1 o1]; destruct (sweep n2 t) as [t2 o2].
  cbn [fst snd] in IH1, IH2. subst t2.
  destruct (is_out_of_stock st && negb (notified st)); cbn; rewrite ?IH2; auto.
Qed.

Lemma cycle_attempts (cls : product -> bool) (n1 n2 : string -> Z -> string -> bool)
    (snap : list product) (w : world) :
  fst (check_and_notify_products cls n1 snap w) = fst (check_and_notify_products cls n2 snap w)
  /\ map attempt (snd (check_and_notify_products cls n1 snap w))
     = map attempt (snd (check_and_notify_products cls n2 snap w)).
Proof.
  unfold check_and_notify_products.
  destruct snap as [|p0 rest]; [auto|].
  destruct (scan_attempts cls n1 n2 (INITIAL_RUN_COMPLETE w) (p0 :: rest) []
              (PRODUCT_STOCK_STATES w) [] [] eq_refl) as [Hf Hm].
  destruct (scan cls n1 (INITIAL_RUN_COMPLETE w) (p0 :: rest) [] (PRODUCT_STOCK_STATES w) [])
    as [[ids1 s1] o1].
  destruct (scan cls n2 (INITIAL_RUN_COMPLETE w) (p0 :: rest) [] (PRODUCT_STOCK_STATES w) [])
    as [[ids2 s2] o2].
  cbn [fst snd] in Hf, Hm. injection Hf as <- <-.
  destruct (negb (INITIAL_RUN_COMPLETE w)); [|auto].
  destruct (sweep_attempts n1 n2 s1) as [Sf Sm].
  destruct (sweep n1 s1) as [t1 q1]; destruct (sweep n2 s1) as [t2 q2].
  cbn [fst snd] in *. subst t2. rewrite !map_app, Hm, Sm. auto.
Qed.

Lemma In_keys_lookup (k : Z) (s : store) : In k (keys s) <-> lookup k s <> None.
Proof.
  split.
  - intros H H'. apply lookup_None_keys in H'. contradiction.
  - intros H. destruct (in_dec Z.eq_dec k (keys s)) as [Hin|Hn]; [exact Hin|].
    exfalso. apply H, lookup_None_keys, Hn.
Qed.

Lemma scan_key_None (cls : product -> bool) (notif : string -> Z -> string -> bool)
    (irc : bool) (k : Z) (ps : list product) :
  forall e, fst (scan_key cls notif irc k e ps) = None -> e = None /\ has_key k ps = false.
Proof.
  induction ps as [|p rest IH]; intros e H; [split; [exact H|reflexivity]|].
  cbn [scan_key] in H. unfold has_key; cbn [existsb]; fold (has_key k rest).
  destruct (is_key k p) eqn:Hk.
  - destruct (product_step cls notif irc k e p) as [st out].
    destruct (scan_key cls notif irc k (Some st) rest) as [e' n] eqn:E.
    cbn [fst] in H. subst e'. destruct (IH (Some st)) as [Hc _]; [rewrite E; reflexivity|].
    discriminate.
  - apply IH. exact H.
Qed.

(** ** The claims *)

(** C1: after any run, from any state the program can be in, every entry of
    the store that is marked notified is out of stock. *)
Theorem reconcile_notified_implies_out_of_stock (cls : product -> bool)
    (notif : string -> Z -> string -> bool) (w : world) (snap : list product) :
  reachable cls notif w ->
  forall k st,
    In (k, st) (PRODUCT_STOCK_STATES (fst (check_and_notify_products cls notif snap w))) ->
    notified st = true -> is_out_of_stock st = true.
Proof.
  intros Hr. apply (reachable_inv cls notif). apply reachable_run. exact Hr.
Qed.

(** C2 (counterexample): with the same id twice in the snapshot, once out of
    stock and once in stock, every repetition of the run notifies again. *)
Lemma reconcile_twice_duplicate_ids_notifies :
  snd (check_and_notify_products sample_classifier notifier_ok [widget_out; widget_in]
         (fst (check_and_notify_products sample_classifier notifier_ok
                 [widget_out; widget_in] initial_world)))
  = [mk_notification "Widget" 1 widget_link true]
  /\ snd (check_and_notify_products sample_classifier notifier_ok [widget_out; widget_in]
            (fst (check_and_notify_products sample_classifier notifier_ok
                    [widget_out; widget_in] initial_world))) <> [].
Proof. vm_compute. split; [reflexivity|discriminate]. Qed.

(** C2 (amended): when all records of an id in the snapshot are classified
    alike, a second run on the same snapshot sends nothing. *)
Theorem reconcile_twice_silent (cls : product -> bool)
    (notif : string -> Z -> string -> bool) (w : world) (snap : list product) :
  wf w ->
  (forall k p q, In p snap -> In q snap -> is_key k p = true -> is_key k q = true ->
                 cls p = cls q) ->
  snd (check_and_notify_products cls notif snap
         (fst (check_and_notify_products cls notif snap w))) = [].
Proof.
  intros Hwf Hcls.
  destruct snap as [|p0 rest]; [reflexivity|].
  remember (p0 :: rest) as snap eqn:Esnap.
  assert (Hne : snap <> []) by (subst; discriminate).
  destruct (cycle_spec cls notif snap w Hne Hwf) as (Hirc & Hwf1 & _).
  apply count_for_nil. intros k.
  destruct (has_key k snap) eqn:Hh.
  - destruct (proj1 (has_key_In k snap) Hh) as [p [Hp Hk]].
    apply is_key_truthy in Hk.
    assert (Hall : all_key_cls cls k (cls p) snap)
      by (intros q Hq Hkq; symmetry; apply (Hcls k p q); auto).
    destruct (cls p).
    + destruct (cycle_key_true cls notif snap w k Hwf Hh Hall) as [_ [st [Hl [Ho Hn]]]].
      destruct (cycle_key_true cls notif snap _ k Hwf1 Hh Hall) as [Hc _].
      rewrite Hc, Hl. cbn. rewrite Ho, Hn. reflexivity.
    + apply (cycle_key_false cls notif snap _ k Hwf1 Hh Hall).
  - apply (cycle_key_absent cls notif snap _ k Hwf1 Hne Hh Hirc).
Qed.

(** C3 (counterexample): a product listed twice, out of stock, at cold start
    is notified during the per-item loop (re-confirmation branch), not in
    the sweep. *)
Lemma cold_start_duplicate_notified_during_scan :
  count_for 1 (snd (scan sample_classifier notifier_ok false [widget_out; widget_out] [] [] []))
  = 1%nat.
Proof. vm_compute. reflexivity. Qed.

(** C3 (amended): at cold start, an out-of-stock product whose truthy id
    occurs once in the snapshot gets no notification in the per-item loop,
    exactly one in the post-scan sweep, and the run sends the loop's
    notifications followed by the sweep's. *)
Theorem cold_start_sweep_notifies_once (cls : product -> bool)
    (notif : string -> Z -> string -> bool) (snap : list product) (k : Z) :
  List.length (filter (is_key k) snap) = 1%nat ->
  (forall p, In p snap -> is_key k p = true -> cls p = true) ->
  let r := scan cls notif false snap [] [] [] in
  count_for k (snd r) = 0%nat
  /\ count_for k (snd (sweep notif (snd (fst r)))) = 1%nat
  /\ snd (check_and_notify_products cls notif snap initial_world)
     = snd r ++ snd (sweep notif (snd (fst r))).
Proof.
  intros Hone Hall r.
  destruct (scan_spec cls notif false snap [] [] []) as (_ & Hl & Hc).
  destruct (scan_key_one cls notif k snap Hone Hall) as [st [Hs [Ho Hn]]].
  pose proof (scan_NoDup cls notif false snap [] [] [] (NoDup_nil _)) as Hnd.
  fold r in Hl, Hc, Hnd. cbn [lookup] in Hl, Hc.
  split; [|split].
  - rewrite Hc, Hs. reflexivity.
  - rewrite (sweep_count_for notif k _ Hnd), Hl, Hs. cbn. rewrite Ho, Hn. reflexivity.
  - destruct snap as [|p0 rest]; [discriminate|].
    unfold check_and_notify_products, r. cbn [INITIAL_RUN_COMPLETE PRODUCT_STOCK_STATES initial_world negb].
    destruct (scan cls notif false (p0 :: rest) [] [] []) as [[ids s1] o1].
    cbn [fst snd]. destruct (sweep notif s1) as [s2 o2]. reflexivity.
Qed.

(** C7: a run on an empty snapshot changes nothing and sends nothing. *)
Theorem empty_snapshot_skips (cls : product -> bool)
    (notif : string -> Z -> string -> bool) (w : world) :
  check_and_notify_products cls notif [] w = (w, []).
Proof. reflexivity. Qed.

(** C4: a product whose records read in stock, then out of stock three runs
    in a row, is notified exactly once, in the second run, whatever the
    other products and the state before the first run. *)
Theorem transition_dedup (cls : product -> bool) (notif : string -> Z -> string -> bool)
    (w : world) (k : Z) (s1 s2 s3 s4 : list product) :
  wf w ->
  has_key k s1 = true -> has_key k s2 = true -> has_key k s3 = true -> has_key k s4 = true ->
  (forall p, In p s1 -> is_key k p = true -> cls p = false) ->
  (forall p, In p s2 -> is_key k p = true -> cls p = true) ->
  (forall p, In p s3 -> is_key k p = true -> cls p = true) ->
  (forall p, In p s4 -> is_key k p = true -> cls p = true) ->
  map (count_for k) (snd (run_cycles cls notif [s1; s2; s3; s4] w)) = [0; 1; 0; 0]%nat.
Proof.
  intros W0 H1 H2 H3 H4 A1 A2 A3 A4. cbn [run_cycles].
  destruct (cycle_key_false cls notif s1 w k W0 H1 A1) as [C1 [st1 [L1 O1]]].
  destruct (cycle_spec cls notif s1 w (has_key_nonempty k s1 H1) W0) as (_ & W1 & _).
  destruct (check_and_notify_products cls notif s1 w) as [w1 o1]; cbn [fst snd] in *.
  destruct (cycle_key_true cls notif s2 w1 k W1 H2 A2) as [C2 [st2 [L2 [O2 N2]]]].
  destruct (cycle_spec cls notif s2 w1 (has_key_nonempty k s2 H2) W1) as (_ & W2 & _).
  destruct (check_and_notify_products cls notif s2 w1) as [w2 o2]; cbn [fst snd] in *.
  destruct (cycle_key_true cls notif s3 w2 k W2 H3 A3) as [C3 [st3 [L3 [O3 N3]]]].
  destruct (cycle_spec cls notif s3 w2 (has_key_nonempty k s3 H3) W2) as (_ & W3 & _).
  destruct (check_and_notify_products cls notif s3 w2) as [w3 o3]; cbn [fst snd] in *.
  destruct (cycle_key_true cls notif s4 w3 k W3 H4 A4) as [C4 _].
  destruct (check_and_notify_products cls notif s4 w3) as [w4 o4]; cbn [fst snd] in *.
  cbn [map]. rewrite C1, C2, C3, C4, L1, L2, L3. cbn.
  rewrite O1, O2, N2, O3, N3. reflexivity.
Qed.

(** C5 (counterexample): from cold start, out of stock, in stock, out of
    stock notifies in the first and the third run, not in the second. *)
Lemma flip_back_notifies_first_and_third :
  map (count_for 1)
      (snd (run_cycles sample_classifier notifier_ok
              [[widget_out]; [widget_in]; [widget_out]] initial_world))
  = [1; 0; 1]%nat
  /\ map (count_for 1)
      (snd (run_cycles sample_classifier notifier_ok
              [[widget_out]; [widget_in]; [widget_out]] initial_world))
     <> [0; 1; 1]%nat.
Proof. vm_compute. split; [reflexivity|discriminate]. Qed.

(** C5 (amended): a product first seen out of stock, then in stock, then out
    of stock again is notified exactly twice, in the first and the third
    run, and never on its return to stock. *)
Theorem flip_back_resets_notification (cls : product -> bool)
    (notif : string -> Z -> string -> bool) (w : world) (k : Z) (s1 s2 s3 : list product) :
  wf w -> lookup k (PRODUCT_STOCK_STATES w) = None ->
  has_key k s1 = true -> has_key k s2 = true -> has_key k s3 = true ->
  (forall p, In p s1 -> is_key k p = true -> cls p = true) ->
  (forall p, In p s2 -> is_key k p = true -> cls p = false) ->
  (forall p, In p s3 -> is_key k p = true -> cls p = true) ->
  map (count_for k) (snd (run_cycles cls notif [s1; s2; s3] w)) = [1; 0; 1]%nat.
Proof.
  intros W0 L0 H1 H2 H3 A1 A2 A3. cbn [run_cycles].
  destruct (cycle_key_true cls notif s1 w k W0 H1 A1) as [C1 _].
  destruct (cycle_spec cls notif s1 w (has_key_nonempty k s1 H1) W0) as (_ & W1 & _).
  destruct (check_and_notify_products cls notif s1 w) as [w1 o1]; cbn [fst snd] in *.
  destruct (cycle_key_false cls notif s2 w1 k W1 H2 A2) as [C2 [st2 [L2 O2]]].
  destruct (cycle_spec cls notif s2 w1 (has_key_nonempty k s2 H2) W1) as (_ & W2 & _).
  destruct (check_and_notify_products cls notif s2 w1) as [w2 o2]; cbn [fst snd] in *.
  destruct (cycle_key_true cls notif s3 w2 k W2 H3 A3) as [C3 _].
  destruct (check_and_notify_products cls notif s3 w2) as [w3 o3]; cbn [fst snd] in *.
  cbn [map]. rewrite C1, C2, C3, L0, L2. cbn. rewrite O2. reflexivity.
Qed.

(** C6 (counterexample): the notifier reports failure, yet the product is
    marked notified after the run. *)
Lemma failed_delivery_marks_notified :
  snd (check_and_notify_products sample_classifier notifier_fail [widget_out] initial_world)
  = [mk_notification "Widget" 1 widget_link false]
  /\ lookup 1 (PRODUCT_STOCK_STATES
                 (fst (check_and_notify_products sample_classifier notifier_fail
                         [widget_out] initial_world)))
     = Some (mk_state "Widget" true widget_link true).
Proof. vm_compute. split; reflexivity. Qed.

(** C6 (amended): the notifier's answer is never read.  The run goes on
    after a failed delivery, and the store, the initial-scan flag and the
    sequence of notification attempts afterwards are the same whatever the
    notifier answers. *)
Theorem notifier_result_ignored (cls : product -> bool)
    (n1 n2 : string -> Z -> string -> bool) (snap : list product) (w : world) :
  fst (check_and_notify_products cls n1 snap w) = fst (check_and_notify_products cls n2 snap w)
  /\ map attempt (snd (check_and_notify_products cls n1 snap w))
     = map attempt (snd (check_and_notify_products cls n2 snap w)).
Proof. apply cycle_attempts. Qed.

(** C8: a run on a non-empty snapshot in which no record carries the id [k]
    deletes [k] from the store.  In the next run, the first record of [k]
    finds no entry ([previous_state] is [None]) and goes through the
    new-product branch: the entry is created with [notified = false] and is
    marked notified, with one notification, only when the record is out of
    stock and the initial scan is complete. *)
Theorem deleted_id_reinserted_fresh (cls : product -> bool)
    (notif : string -> Z -> string -> bool) (w : world) (snap : list product) (k : Z) :
  snap <> [] -> wf w -> (forall p, In p snap -> p_id p <> Some k) ->
  let w' := fst (check_and_notify_products cls notif snap w) in
  ~ In k (keys (PRODUCT_STOCK_STATES w'))
  /\ (forall pre ids sent p,
        (forall q, In q pre -> is_key k q = false) ->
        truthy_id (p_id p) = Some k ->
        lookup k (snd (fst (scan cls notif (INITIAL_RUN_COMPLETE w') pre ids
                              (PRODUCT_STOCK_STATES w') sent))) = None
        /\ product_step cls notif (INITIAL_RUN_COMPLETE w') k None p
           = (mk_state (product_name p) (cls p) (product_permalink p)
                       (cls p && INITIAL_RUN_COMPLETE w'),
              if cls p && INITIAL_RUN_COMPLETE w'
              then [notify notif (product_name p) k (product_permalink p)] else [])).
Proof.
  intros Hne Hwf Habs w'.
  assert (Hgone : lookup k (PRODUCT_STOCK_STATES w') = None).
  { destruct (cycle_spec cls notif snap w Hne Hwf) as (_ & _ & Hl & _).
    unfold w'. rewrite Hl. unfold cycle_key.
    destruct (mem_id (Some k) (map p_id snap)) eqn:Hm.
    - apply mem_id_map in Hm as [p [Hp Hk]]. exfalso. exact (Habs p Hp Hk).
    - destruct (scan_key cls notif (INITIAL_RUN_COMPLETE w) k
                  (lookup k (PRODUCT_STOCK_STATES w)) snap); reflexivity. }
  split; [apply lookup_None_keys; exact Hgone|].
  intros pre ids sent p Hpre Hp.
  split.
  - destruct (scan_spec cls notif (INITIAL_RUN_COMPLETE w') pre ids
                (PRODUCT_STOCK_STATES w') sent) as (_ & Hl & _).
    rewrite Hl, Hgone, scan_key_none; [reflexivity|].
    destruct (has_key k pre) eqn:Hh; [|reflexivity].
    apply has_key_In in Hh as [q [Hq Hqk]].
    apply is_key_truthy in Hqk. rewrite (Hpre q Hq) in Hqk. discriminate.
  - unfold product_step.
    destruct (cls p), (INITIAL_RUN_COMPLETE w'); reflexivity.
Qed.

(** C9: a reply to a post is forwarded for stock-update processing exactly
    when it has non-empty text in which the lower-cased keyword occurs in
    the lower-cased text; otherwise nothing is forwarded. *)
Theorem handle_reply_routes_on_keyword (lower : string -> string)
    (OUT_OF_STOCK_KEYWORD : string) (m : message) (original_post : Z) :
  reply_to_message m = Some original_post ->
  (forall t, handle_reply lower OUT_OF_STOCK_KEYWORD (Some m) = Some (original_post, t)
             <-> text m = Some t /\ t <> EmptyString
                 /\ exists pre post, lower t = (pre ++ lower OUT_OF_STOCK_KEYWORD ++ post)%string)
  /\ (handle_reply lower OUT_OF_STOCK_KEYWORD (Some m) = None
      <-> ~ exists t, text m = Some t /\ t <> EmptyString
                      /\ exists pre post, lower t = (pre ++ lower OUT_OF_STOCK_KEYWORD ++ post)%string).
Proof.
  intros Hr. unfold handle_reply. rewrite Hr.
  destruct (text m) as [t0|].
  - destruct (negb (String.eqb t0 EmptyString)
              && contains (lower OUT_OF_STOCK_KEYWORD) (lower t0)) eqn:Hc.
    + apply andb_true_iff in Hc as [He Hc].
      apply negb_true_iff, String.eqb_neq in He. apply contains_spec in Hc.
      split.
      * intros t. split.
        -- intros H. injection H as <-. auto.
        -- intros [H _]. injection H as <-. reflexivity.
      * split; [discriminate|]. intros H. exfalso. apply H. eauto.
    + split.
      * intros t. split; [discriminate|].
        intros [H [He Hk]]. injection H as <-.
        apply String.eqb_neq, negb_true_iff in He. apply contains_spec in Hk.
        rewrite He, Hk in Hc. discriminate.
      * split; [intros _|reflexivity].
        intros [t [H [He Hk]]]. injection H as <-.
        apply String.eqb_neq, negb_true_iff in He. apply contains_spec in Hk.
        rewrite He, Hk in Hc. discriminate.
  - split.
    + intros t. split; [discriminate|intros [H _]; discriminate].
    + split; [intros _ [t [H _]]; discriminate|reflexivity].
Qed.

(** C10: after a run on a non-empty snapshot, the ids in the store are
    exactly the truthy ids of the snapshot's records. *)
Theorem tracked_ids_are_snapshot_ids (cls : product -> bool)
    (notif : string -> Z -> string -> bool) (w : world) (snap : list product) :
  snap <> [] -> wf w -> (forall k, In k (keys (PRODUCT_STOCK_STATES w)) -> k <> 0) ->
  forall k, In k (keys (PRODUCT_STOCK_STATES (fst (check_and_notify_products cls notif snap w))))
            <-> exists p, In p snap /\ truthy_id (p_id p) = Some k.
Proof.
  intros Hne Hwf Hnz k.
  destruct (cycle_spec cls notif snap w Hne Hwf) as (_ & _ & Hl & _).
  rewrite In_keys_lookup, Hl, <- has_key_In. unfold cycle_key.
  destruct (scan_key cls notif (INITIAL_RUN_COMPLETE w) k
              (lookup k (PRODUCT_STOCK_STATES w)) snap) as [e1 n1] eqn:Hs.
  cbn [fst]. split.
  - intros H. destruct (has_key k snap) eqn:Hh; [reflexivity|].
    rewrite scan_key_none in Hs by exact Hh. injection Hs as He1 _.
    destruct (mem_id (Some k) (map p_id snap)) eqn:Hm; [|congruence].
    assert (He : e1 <> None)
      by (intros E; rewrite E in H; destruct (INITIAL_RUN_COMPLETE w); apply H; reflexivity).
    rewrite <- He1 in He. apply In_keys_lookup in He.
    apply mem_id_map in Hm as [p [Hp Hk]].
    rewrite <- Hh. apply has_key_In. exists p. split; [exact Hp|].
    apply truthy_id_Some. split; [exact Hk|]. apply Hnz, He.
  - intros Hh. rewrite (has_key_mem k snap Hh).
    destruct e1 as [st|].
    + destruct (INITIAL_RUN_COMPLETE w); discriminate.
    + exfalso. destruct (scan_key_None cls notif (INITIAL_RUN_COMPLETE w) k snap
                           (lookup k (PRODUCT_STOCK_STATES w))) as [_ Hf];
        [rewrite Hs; reflexivity|]. congruence.
Qed.

(** ** Witnesses: the theorems above applied to the sample inputs *)

Lemma reconcile_notified_implies_out_of_stock_witness :
  reachable sample_classifier notifier_ok initial_world
  /\ (forall k st,
        In (k, st) (PRODUCT_STOCK_STATES
                      (fst (check_and_notify_products sample_classifier notifier_ok
                              [widget_out; gadget_in] initial_world))) ->
        notified st = true -> is_out_of_stock st = true).
Proof.
  split; [constructor|].
  apply reconcile_notified_implies_out_of_stock. constructor.
Defined.

Lemma reconcile_twice_silent_witness :
  wf initial_world
  /\ (forall k p q, In p [widget_out; gadget_in] -> In q [widget_out; gadget_in] ->
                    is_key k p = true -> is_key k q = true ->
                    sample_classifier p = sample_classifier q)
  /\ snd (check_and_notify_products sample_classifier notifier_ok [widget_out; gadget_in]
            (fst (check_and_notify_products sample_classifier notifier_ok
                    [widget_out; gadget_in] initial_world))) = [].
Proof.
  assert (Hw : wf initial_world) by constructor.
  assert (Hc : forall k p q, In p [widget_out; gadget_in] -> In q [widget_out; gadget_in] ->
                 is_key k p = true -> is_key k q = true ->
                 sample_classifier p = sample_classifier q).
  { intros k p q Hp Hq Kp Kq.
    destruct Hp as [<-|[<-|[]]]; destruct Hq as [<-|[<-|[]]]; try reflexivity;
      apply is_key_truthy in Kp, Kq; cbn in Kp, Kq; congruence. }
  split; [exact Hw|split; [exact Hc|]].
  apply (reconcile_twice_silent sample_classifier notifier_ok initial_world
           [widget_out; gadget_in] Hw Hc).
Defined.

Lemma cold_start_sweep_notifies_once_witness :
  List.length (filter (is_key 1) [widget_out; gadget_in]) = 1%nat
  /\ (forall p, In p [widget_out; gadget_in] -> is_key 1 p = true -> sample_classifier p = true)
  /\ (let r := scan sample_classifier notifier_ok false [widget_out; gadget_in] [] [] [] in
      count_for 1 (snd r) = 0%nat
      /\ count_for 1 (snd (sweep notifier_ok (snd (fst r)))) = 1%nat
      /\ snd (check_and_notify_products sample_classifier notifier_ok
                [widget_out; gadget_in] initial_world)
         = snd r ++ snd (sweep notifier_ok (snd (fst r)))).
Proof.
  assert (H1 : List.length (filter (is_key 1) [widget_out; gadget_in]) = 1%nat)
    by reflexivity.
  assert (H2 : forall p, In p [widget_out; gadget_in] -> is_key 1 p = true ->
                         sample_classifier p = true)
    by (intros p [<-|[<-|[]]] K; [reflexivity|discriminate]).
  split; [exact H1|split; [exact H2|]].
  apply (cold_start_sweep_notifies_once sample_classifier notifier_ok
           [widget_out; gadget_in] 1 H1 H2).
Defined.

Lemma transition_dedup_witness :
  wf initial_world
  /\ has_key 1 [widget_in; gadget_in] = true /\ has_key 1 [widget_out] = true
  /\ (forall p, In p [widget_in; gadget_in] -> is_key 1 p = true -> sample_classifier p = false)
  /\ (forall p, In p [widget_out] -> is_key 1 p = true -> sample_classifier p = true)
  /\ map (count_for 1)
       (snd (run_cycles sample_classifier notifier_ok
               [[widget_in; gadget_in]; [widget_out]; [widget_out]; [widget_out]]
               initial_world)) = [0; 1; 0; 0]%nat.
Proof.
  assert (Hw : wf initial_world) by constructor.
  assert (A1 : forall p, In p [widget_in; gadget_in] -> is_key 1 p = true ->
                         sample_classifier p = false)
    by (intros p [<-|[<-|[]]] K; [reflexivity|discriminate]).
  assert (A2 : forall p, In p [widget_out] -> is_key 1 p = true -> sample_classifier p = true)
    by (intros p [<-|[]] K; reflexivity).
  split; [exact Hw|split; [reflexivity|split; [reflexivity|split; [exact A1|split; [exact A2|]]]]].
  apply (transition_dedup sample_classifier notifier_ok initial_world 1
           [widget_in; gadget_in] [widget_out] [widget_out] [widget_out] Hw
           eq_refl eq_refl eq_refl eq_refl A1 A2 A2 A2).
Defined.

Lemma flip_back_resets_notification_witness :
  wf initial_world /\ lookup 1 (PRODUCT_STOCK_STATES initial_world) = None
  /\ has_key 1 [widget_out] = true /\ has_key 1 [widget_in; gadget_in] = true
  /\ (forall p, In p [widget_out] -> is_key 1 p = true -> sample_classifier p = true)
  /\ (forall p, In p [widget_in; gadget_in] -> is_key 1 p = true -> sample_classifier p = false)
  /\ map (count_for 1)
       (snd (run_cycles sample_classifier notifier_ok
               [[widget_out]; [widget_in; gadget_in]; [widget_out]] initial_world))
     = [1; 0; 1]%nat.
Proof.
  assert (Hw : wf initial_world) by constructor.
  assert (A1 : forall p, In p [widget_out] -> is_key 1 p = true -> sample_classifier p = true)
    by (intros p [<-|[]] K; reflexivity).
  assert (A2 : forall p, In p [widget_in; gadget_in] -> is_key 1 p = true ->
                         sample_classifier p = false)
    by (intros p [<-|[<-|[]]] K; [reflexivity|discriminate]).
  split; [exact Hw|split; [reflexivity|split; [reflexivity|split; [reflexivity|
    split; [exact A1|split; [exact A2|]]]]]].
  apply (flip_back_resets_notification sample_classifier notifier_ok initial_world 1
           [widget_out] [widget_in; gadget_in] [widget_out] Hw eq_refl
           eq_refl eq_refl eq_refl A1 A2 A1).
Defined.

Lemma deleted_id_reinserted_fresh_witness :
  [gadget_in] <> [] /\ wf widget_world
  /\ (forall p, In p [gadget_in] -> p_id p <> Some 1)
  /\ (let w' := fst (check_and_notify_products sample_classifier notifier_ok
                       [gadget_in] widget_world) in
      ~ In 1 (keys (PRODUCT_STOCK_STATES w'))
      /\ (forall pre ids sent p,
            (forall q, In q pre -> is_key 1 q = false) ->
            truthy_id (p_id p) = Some 1 ->
            lookup 1 (snd (fst (scan sample_classifier notifier_ok (INITIAL_RUN_COMPLETE w')
                                  pre ids (PRODUCT_STOCK_STATES w') sent))) = None
            /\ product_step sample_classifier notifier_ok (INITIAL_RUN_COMPLETE w') 1 None p
               = (mk_state (product_name p) (sample_classifier p) (product_permalink p)
                           (sample_classifier p && INITIAL_RUN_COMPLETE w'),
                  if sample_classifier p && INITIAL_RUN_COMPLETE w'
                  then [notify notifier_ok (product_name p) 1 (product_permalink p)]
                  else []))).
Proof.
  assert (Hne : [gadget_in] <> []) by discriminate.
  assert (Hw : wf widget_world)
    by (unfold wf; vm_compute; constructor; [intros []|constructor]).
  assert (Ha : forall p, In p [gadget_in] -> p_id p <> Some 1)
    by (intros p [<-|[]]; discriminate).
  split; [exact Hne|split; [exact Hw|split; [exact Ha|]]].
  apply (deleted_id_reinserted_fresh sample_classifier notifier_ok widget_world
           [gadget_in] 1 Hne Hw Ha).
Defined.

Lemma handle_reply_routes_on_keyword_witness :
  reply_to_message (sample_reply "Widget is SOLD OUT") = Some 7
  /\ (forall t, handle_reply string_lower "sold out" (Some (sample_reply "Widget is SOLD OUT"))
                = Some (7, t)
             <-> text (sample_reply "Widget is SOLD OUT") = Some t /\ t <> EmptyString
                 /\ exists pre post,
                      string_lower t = (pre ++ string_lower "sold out" ++ post)%string)
  /\ (handle_reply string_lower "sold out" (Some (sample_reply "Widget is SOLD OUT")) = None
      <-> ~ exists t, text (sample_reply "Widget is SOLD OUT") = Some t /\ t <> EmptyString
                      /\ exists pre post,
                           string_lower t = (pre ++ string_lower "sold out" ++ post)%string).
Proof.
  split; [reflexivity|].
  apply (handle_reply_routes_on_keyword string_lower "sold out"
           (sample_reply "Widget is SOLD OUT") 7 eq_refl).
Defined.

Lemma tracked_ids_are_snapshot_ids_witness :
  [gadget_in; widget_in] <> [] /\ wf widget_world
  /\ (forall k, In k (keys (PRODUCT_STOCK_STATES widget_world)) -> k <> 0)
  /\ (forall k, In k (keys (PRODUCT_STOCK_STATES
                               (fst (check_and_notify_products sample_classifier notifier_ok
                                       [gadget_in; widget_in] widget_world))))
                <-> exists p, In p [gadget_in; widget_in] /\ truthy_id (p_id p) = Some k).
Proof.
  assert (Hne : [gadget_in; widget_in] <> []) by discriminate.
  assert (Hw : wf widget_world)
    by (unfold wf; vm_compute; constructor; [intros []|constructor]).
  assert (Hz : forall k, In k (keys (PRODUCT_STOCK_STATES widget_world)) -> k <> 0)
    by (intros k Hk; vm_compute in Hk; destruct Hk as [<-|[]]; discriminate).
  split; [exact Hne|split; [exact Hw|split; [exact Hz|]]].
  apply (tracked_ids_are_snapshot_ids sample_classifier notifier_ok widget_world
           [gadget_in; widget_in] Hne Hw Hz).
Defined.

(** * Further properties of the modules *)

Section EngineFacts.

Variable cls : product -> bool.
Variable notif : string -> Z -> string -> bool.

Local Abbreviation step := (product_step cls notif).
Local Abbreviation scan_ := (scan cls notif).
Local Abbreviation sweep_ := (sweep notif).
Local Abbreviation cycle := (check_and_notify_products cls notif).

Lemma step_fields (irc : bool) (k : Z) (e : option state) (p : product) :
  name (fst (step irc k e p)) = product_name p
  /\ permalink (fst (step irc k e p)) = product_permalink p
  /\ is_out_of_stock (fst (step irc k e p)) = cls p.
Proof.
  unfold product_step.
  destruct e as [[n0 o0 l0 b0]|].
  - destruct (String.eqb n0 (product_name p)) eqn:E1;
      destruct (String.eqb l0 (product_permalink p)) eqn:E2;
      destruct (cls p) eqn:Hc, o0, b0; cbn -[product_name product_permalink];
      rewrite ?E1, ?E2; cbn -[product_name product_permalink];
      rewrite ?Hc; cbn -[product_name product_permalink];
      try apply String.eqb_eq in E1; try apply String.eqb_eq in E2;
      auto.
  - destruct (cls p), irc; cbn; auto.
Qed.


Lemma step_sent_fields (irc : bool) (k : Z) (e : option state) (p : product) :
  forall n, In n (snd (step irc k e p)) ->
  n_id n = k /\ cls p = true /\ n_name n = product_name p /\ n_permalink n = product_permalink p.
Proof.
  unfold product_step.
  destruct e as [[n0 o0 l0 b0]|].
  - destruct (cls p) eqn:Hc, o0, b0; cbn -[product_name product_permalink];
      destruct (negb (String.eqb _ _) || negb (String.eqb _ _)); cbn;
      intros n H; intuition; subst; cbn; auto.
  - destruct (cls p) eqn:Hc, irc; cbn; intros n H; intuition; subst; cbn; auto.
Qed.

(** The run's notifications each come from a record of [snap]. *)
Lemma scan_sent_from (snap : list product) (irc : bool) (ps : list product) :
  forall ids s sent,
    incl ps snap ->
    (forall n, In n sent -> exists p, In p snap /\ truthy_id (p_id p) = Some (n_id n)
        /\ cls p = true /\ n_name n = product_name p /\ n_permalink n = product_permalink p) ->
    forall n, In n (snd (scan_ irc ps ids s sent)) ->
    exists p, In p snap /\ truthy_id (p_id p) = Some (n_id n)
        /\ cls p = true /\ n_name n = product_name p /\ n_permalink n = product_permalink p.
Proof.
  induction ps as [|p rest IH]; intros ids s sent Hincl Hsent; cbn [scan]; auto.
  assert (Hp : In p snap) by (apply Hincl; left; reflexivity).
  assert (Hr : incl rest snap) by (intros q Hq; apply Hincl; right; exact Hq).
  destruct (truthy_id (p_id p)) as [j|] eqn:Ht; [|apply IH; auto].
  pose proof (step_sent_fields irc j (lookup j s) p) as Hf.
  destruct (step irc j (lookup j s) p) as [st out]; cbn [snd] in Hf.
  apply IH; [exact Hr|]. intros n Hn. apply in_app_or in Hn as [Hn|Hn]; [auto|].
  destruct (Hf n Hn) as (Hid & Hc & Hn1 & Hl1). exists p. rewrite Hid. auto.
Qed.

(** The entries written by the scan each agree with a record of [snap]. *)
Lemma scan_store_from (snap : list product) (irc : bool) (ps : list product) :
  forall ids s sent,
    incl ps snap ->
    (forall k st, In (k, st) s -> exists p, In p snap /\ truthy_id (p_id p) = Some k
        /\ name st = product_name p /\ permalink st = product_permalink p
        /\ is_out_of_stock st = cls p) ->
    forall k st, In (k, st) (snd (fst (scan_ irc ps ids s sent))) ->
    exists p, In p snap /\ truthy_id (p_id p) = Some k
        /\ name st = product_name p /\ permalink st = product_permalink p
        /\ is_out_of_stock st = cls p.
Proof.
  induction ps as [|p rest IH]; intros ids s sent Hincl Hs; cbn [scan]; auto.
  assert (Hp : In p snap) by (apply Hincl; left; reflexivity).
  assert (Hr : incl rest snap) by (intros q Hq; apply Hincl; right; exact Hq).
  destruct (truthy_id (p_id p)) as [j|] eqn:Ht; [|apply IH; auto].
  pose proof (step_fields irc j (lookup j s) p) as Hf.
  destruct (step irc j (lookup j s) p) as [st out]; cbn [fst] in Hf.
  apply IH; [exact Hr|]. intros k st' Hin.
  apply In_set_entry in Hin as [Heq|Hin]; [|auto].
  injection Heq as -> ->. exists p. auto.
Qed.

Lemma sweep_sent_from (s : store) :
  forall n, In n (snd (sweep_ s)) ->
  exists st, In (n_id n, st) s /\ is_out_of_stock st = true
    /\ n_name n = name st /\ n_permalink n = permalink st.
Proof.
  induction s as [|[k st] t IH]; cbn [sweep]; [intros n []|].
  destruct (sweep_ t) as [t' out]; cbn [snd] in IH.
  destruct (is_out_of_stock st && negb (notified st)) eqn:Hc; cbn [snd].
  - intros n [<-|Hn].
    + exists st. apply andb_true_iff in Hc as [Hc _]. cbn. auto.
    + destruct (IH n Hn) as (st' & H1 & H2). exists st'. split; [right|]; auto.
  - intros n Hn. destruct (IH n Hn) as (st' & H1 & H2). exists st'. split; [right|]; auto.
Qed.

Lemma reachable_cold (w : world) :
  reachable cls notif w -> INITIAL_RUN_COMPLETE w = false -> w = initial_world.
Proof.
  induction 1 as [|w snap Hr IH]; [reflexivity|].
  unfold check_and_notify_products.
  destruct snap as [|p0 rest]; [exact IH|].
  destruct (scan_ (INITIAL_RUN_COMPLETE w) (p0 :: rest) [] (PRODUCT_STOCK_STATES w) [])
    as [[ids s1] sent1].
  destruct (INITIAL_RUN_COMPLETE w) eqn:E; cbn [negb fst INITIAL_RUN_COMPLETE].
  - discriminate.
  - destruct (sweep_ s1) as [s2 o2]. cbn. discriminate.
Qed.

Lemma cycle_flag (snap : list product) (w : world) :
  INITIAL_RUN_COMPLETE (fst (cycle snap w)) = true <-> INITIAL_RUN_COMPLETE w = true \/ snap <> [].
Proof.
  unfold check_and_notify_products.
  destruct snap as [|p0 rest]; cbn [fst].
  - split; [auto|intros [H|H]; [exact H|congruence]].
  - destruct (scan_ (INITIAL_RUN_COMPLETE w) (p0 :: rest) [] (PRODUCT_STOCK_STATES w) [])
      as [[ids s1] sent1].
    split; [intros _; right; discriminate|intros _].
    destruct (INITIAL_RUN_COMPLETE w) eqn:E; cbn [negb]; [reflexivity|].
    destruct (sweep_ s1) as [s2 o2]. reflexivity.
Qed.


Lemma sweep_count_le (e : option state) : (sweep_count e <= 1)%nat.
Proof. unfold sweep_count. destruct e as [st|]; [destruct (_ && _)|]; lia. Qed.

Lemma step_at_most_one (irc : bool) (k : Z) (e : option state) (p : product) :
  (List.length (snd (step irc k e p)) + sweep_count (Some (fst (step irc k e p))) <= 1)%nat.
Proof.
  destruct (cls p) eqn:Hc.
  - destruct (step_true cls notif irc k e p Hc) as (Ho & Hl & _).
    assert (Hi : (init_pending e <= 1)%nat)
      by (unfold init_pending; destruct e as [st|]; [destruct (_ && _)|]; lia).
    unfold sweep_count, pending in *. rewrite Ho. cbn [andb].
    destruct (notified (fst (step irc k e p))); cbn [negb]; lia.
  - destruct (step_false cls notif irc k e p Hc) as [Ho Hs].
    rewrite Hs. unfold sweep_count. rewrite Ho. cbn. lia.
Qed.

Lemma scan_key_single (irc : bool) (k : Z) (ps : list product) :
  List.length (filter (is_key k) ps) = 1%nat ->
  forall e, exists p, scan_key cls notif irc k e ps
    = (Some (fst (step irc k e p)), List.length (snd (step irc k e p))).
Proof.
  induction ps as [|p rest IH]; intros Hl e; [discriminate|].
  cbn [filter] in Hl. cbn [scan_key].
  destruct (is_key k p) eqn:Hk; cbn [List.length] in Hl.
  - injection Hl as Hl. exists p.
    destruct (step irc k e p) as [st out].
    rewrite scan_key_none by (apply filter_nil_has_key; exact Hl).
    cbn [fst snd]. f_equal. lia.
  - apply IH. exact Hl.
Qed.

Lemma last_cons_ne {A : Type} (a d : A) (l : list A) : l <> [] -> last (a :: l) d = last l d.
Proof. destruct l; [intros H; contradiction|reflexivity]. Qed.

Lemma has_key_false_filter (k : Z) (ps : list product) :
  has_key k ps = false -> filter (is_key k) ps = [].
Proof.
  induction ps as [|p rest IH]; [reflexivity|].
  unfold has_key; cbn [existsb filter]; fold (has_key k rest).
  intros H. apply orb_false_iff in H as [H1 H2]. rewrite H1. auto.
Qed.

Lemma has_key_true_filter (k : Z) (ps : list product) :
  has_key k ps = true -> filter (is_key k) ps <> [].
Proof.
  intros H Hf. destruct (has_key k ps) eqn:E; [|discriminate].
  apply has_key_In in E as [p [Hp Hk]]. apply is_key_truthy in Hk.
  assert (Hin : In p (filter (is_key k) ps)) by (apply filter_In; auto).
  rewrite Hf in Hin. exact Hin.
Qed.

Lemma scan_key_last (irc : bool) (k : Z) (d : product) (ps : list product) :
  has_key k ps = true ->
  forall e, exists st, fst (scan_key cls notif irc k e ps) = Some st
    /\ name st = product_name (last (filter (is_key k) ps) d)
    /\ permalink st = product_permalink (last (filter (is_key k) ps) d)
    /\ is_out_of_stock st = cls (last (filter (is_key k) ps) d).
Proof.
  induction ps as [|p rest IH]; intros Hh e; [discriminate|].
  unfold has_key in Hh; cbn [existsb] in Hh; fold (has_key k rest) in Hh.
  cbn [scan_key filter].
  destruct (is_key k p) eqn:Hk; cbn [orb] in Hh.
  - pose proof (step_fields irc k e p) as Hf.
    destruct (step irc k e p) as [st1 out]; cbn [fst] in Hf.
    destruct (has_key k rest) eqn:Hr.
    + destruct (IH eq_refl (Some st1)) as (st & He & H1).
      destruct (scan_key cls notif irc k (Some st1) rest) as [e' n]; cbn [fst] in *.
      exists st. rewrite last_cons_ne by (apply has_key_true_filter; exact Hr). auto.
    + rewrite scan_key_none by exact Hr. rewrite has_key_false_filter by exact Hr.
      exists st1. cbn. auto.
  - apply IH. exact Hh.
Qed.

Lemma remove_deleted_ext (ids1 ids2 : list (option Z)) (s : store) :
  (forall k, In k (keys s) -> mem_id (Some k) ids1 = mem_id (Some k) ids2) ->
  remove_deleted ids1 s = remove_deleted ids2 s.
Proof.
  unfold remove_deleted. induction s as [|[k st] t IH]; intros H; [reflexivity|].
  cbn [filter fst]. rewrite (H k (or_introl eq_refl)).
  rewrite IH by (intros j Hj; apply H; right; exact Hj). reflexivity.
Qed.

(** The records kept when those without a truthy id are dropped. *)
Lemma scan_drop_falsy (irc : bool) (ps : list product) :
  forall ids ids' s sent,
    snd (fst (scan_ irc ps ids s sent))
    = snd (fst (scan_ irc (filter (fun p => match truthy_id (p_id p) with
                                           | Some _ => true | None => false end) ps)
                  ids' s sent))
    /\ snd (scan_ irc ps ids s sent)
       = snd (scan_ irc (filter (fun p => match truthy_id (p_id p) with
                                          | Some _ => true | None => false end) ps)
                 ids' s sent).
Proof.
  induction ps as [|p rest IH]; intros ids ids' s sent; [auto|].
  cbn [scan filter].
  destruct (truthy_id (p_id p)) as [j|] eqn:Ht; cbn [scan]; rewrite ?Ht; [|apply IH].
  destruct (step irc j (lookup j s) p) as [st out]. apply IH.
Qed.

End EngineFacts.

(** Extra X1: in every run from a reachable state, each notification sent
    (during the scan or by the cold-start sweep) comes from a record of the
    snapshot with that truthy id, classified out of stock, whose name and
    permalink are the ones the notification carries. *)
Theorem run_notifications_match_records (cls : product -> bool)
    (notif : string -> Z -> string -> bool) (w : world) (snap : list product) :
  reachable cls notif w ->
  forall n, In n (snd (check_and_notify_products cls notif snap w)) ->
  exists p, In p snap /\ truthy_id (p_id p) = Some (n_id n) /\ cls p = true
    /\ n_name n = product_name p /\ n_permalink n = product_permalink p.
Proof.
  intros Hr. unfold check_and_notify_products.
  destruct snap as [|p0 rest]; [intros n []|].
  pose proof (scan_sent_from cls notif (p0 :: rest) (INITIAL_RUN_COMPLETE w) (p0 :: rest)
                [] (PRODUCT_STOCK_STATES w) [] (incl_refl _) (fun n H => False_rect _ H)) as Hsent.
  destruct (INITIAL_RUN_COMPLETE w) eqn:E.
  - destruct (scan cls notif true (p0 :: rest) [] (PRODUCT_STOCK_STATES w) [])
      as [[ids s1] sent1]; cbn [negb snd] in *. exact Hsent.
  - rewrite (reachable_cold cls notif w Hr E) in Hsent |- *.
    change (PRODUCT_STOCK_STATES initial_world) with (@nil (Z * state)) in *.
    change (INITIAL_RUN_COMPLETE initial_world) with false in *.
    pose proof (scan_store_from cls notif (p0 :: rest) false (p0 :: rest) [] [] []
                  (incl_refl _) (fun k st H => False_rect _ H)) as Hstore.
    destruct (scan cls notif false (p0 :: rest) [] [] []) as [[ids s1] sent1];
      cbn [negb snd fst] in *.
    pose proof (sweep_sent_from notif s1) as Hsw.
    destruct (sweep notif s1) as [s2 o2]; cbn [snd] in *.
    intros n Hn. apply in_app_or in Hn as [Hn|Hn]; [auto|].
    destruct (Hsw n Hn) as (st & Hin & Ho & Hn1 & Hl1).
    destruct (Hstore _ _ Hin) as (p & Hp & Ht & Hn2 & Hl2 & Ho2).
    exists p. rewrite Hn1, Hl1, <- Ho2. auto.
Qed.

(** Extra X2: from a store without duplicate keys, a run sends at most one
    notification for an id that occurs at most once in the snapshot. *)
Theorem unique_id_notified_at_most_once (cls : product -> bool)
    (notif : string -> Z -> string -> bool) (w : world) (snap : list product) (k : Z) :
  wf w -> (List.length (filter (is_key k) snap) <= 1)%nat ->
  (count_for k (snd (check_and_notify_products cls notif snap w)) <= 1)%nat.
Proof.
  intros Hwf Hl.
  destruct snap as [|p0 rest]; [cbn; lia|].
  remember (p0 :: rest) as snap eqn:Es.
  assert (Hne : snap <> []) by (subst; discriminate).
  destruct (cycle_spec cls notif snap w Hne Hwf) as (_ & _ & _ & Hc). rewrite Hc.
  unfold cycle_key.
  destruct (List.length (filter (is_key k) snap)) as [|[|m]] eqn:Hlen; [| |lia].
  - rewrite scan_key_none by (apply filter_nil_has_key; exact Hlen). cbn [snd].
    destruct (INITIAL_RUN_COMPLETE w); [lia|apply sweep_count_le].
  - destruct (scan_key_single cls notif (INITIAL_RUN_COMPLETE w) k snap Hlen
                (lookup k (PRODUCT_STOCK_STATES w))) as [p Hs].
    rewrite Hs. cbn [snd].
    pose proof (step_at_most_one cls notif (INITIAL_RUN_COMPLETE w) k
                  (lookup k (PRODUCT_STOCK_STATES w)) p).
    destruct (INITIAL_RUN_COMPLETE w); lia.
Qed.

(** Extra X3: after a run over a snapshot that contains id [k], the store
    has an entry for [k] whose name, permalink and stock flag are those of
    the last record of the snapshot with that id. *)
Theorem stored_entry_from_last_record (cls : product -> bool)
    (notif : string -> Z -> string -> bool) (w : world) (snap : list product) (k : Z)
    (d : product) :
  wf w -> (exists q, In q snap /\ truthy_id (p_id q) = Some k) ->
  let p := last (filter (is_key k) snap) d in
  exists st, lookup k (PRODUCT_STOCK_STATES (fst (check_and_notify_products cls notif snap w)))
             = Some st
    /\ name st = product_name p /\ permalink st = product_permalink p
    /\ is_out_of_stock st = cls p.
Proof.
  intros Hwf Hq p. apply has_key_In in Hq.
  destruct (cycle_spec cls notif snap w (has_key_nonempty k snap Hq) Hwf) as (_ & _ & Hl & _).
  rewrite Hl. unfold cycle_key. rewrite (has_key_mem k snap Hq).
  destruct (scan_key_last cls notif (INITIAL_RUN_COMPLETE w) k d snap Hq
              (lookup k (PRODUCT_STOCK_STATES w))) as (st & He & Hf).
  destruct (scan_key cls notif (INITIAL_RUN_COMPLETE w) k
              (lookup k (PRODUCT_STOCK_STATES w)) snap) as [e1 n1].
  cbn [fst] in *. subst e1.
  destruct (INITIAL_RUN_COMPLETE w); cbn [option_map].
  - exists st. auto.
  - exists (sweep_state st). unfold sweep_state. destruct (_ && _); cbn; auto.
Qed.

(** Extra X4: in a reachable state, [INITIAL_RUN_COMPLETE] is false only
    in the initial globals, and a run sets it exactly when it was already
    set or the snapshot is not empty. *)
Theorem initial_run_flag (cls : product -> bool) (notif : string -> Z -> string -> bool)
    (w : world) :
  reachable cls notif w ->
  (INITIAL_RUN_COMPLETE w = false -> w = initial_world)
  /\ (forall snap,
        INITIAL_RUN_COMPLETE (fst (check_and_notify_products cls notif snap w)) = true
        <-> INITIAL_RUN_COMPLETE w = true \/ snap <> []).
Proof.
  intros Hr. split; [apply (reachable_cold cls notif); exact Hr|].
  intros snap. apply (cycle_flag cls notif).
Qed.

(** Extra X5: records whose id is missing or zero do not change a run: when
    the store has no key 0 and some record has a truthy id, the run equals
    the run on the snapshot without those records. *)
Theorem falsy_id_records_ignored (cls : product -> bool)
    (notif : string -> Z -> string -> bool) (w : world) (snap : list product) :
  (forall k, In k (keys (PRODUCT_STOCK_STATES w)) -> k <> 0) ->
  let kept := filter (fun p => match truthy_id (p_id p) with
                               | Some _ => true | None => false end) snap in
  kept <> [] ->
  check_and_notify_products cls notif snap w = check_and_notify_products cls notif kept w.
Proof.
  intros Hnz kept Hk.
  set (f := fun p : product => match truthy_id (p_id p) with
                               | Some _ => true | None => false end) in kept.
  assert (Hmem : forall j, j <> 0 ->
            mem_id (Some j) (rev (map p_id snap) ++ [])
            = mem_id (Some j) (rev (map p_id kept) ++ [])).
  { intros j Hj. rewrite !mem_id_rev_app. apply Bool.eq_true_iff_eq. rewrite !mem_id_map.
    split; intros [p [Hp Hpj]].
    - exists p. split; [|exact Hpj]. apply filter_In. split; [exact Hp|].
      unfold f. rewrite (proj2 (truthy_id_Some (p_id p) j) (conj Hpj Hj)). reflexivity.
    - exists p. split; [|exact Hpj]. apply filter_In in Hp as [Hp _]. exact Hp. }
  assert (Hkeys : forall j, In j (keys (snd (fst (scan cls notif (INITIAL_RUN_COMPLETE w) snap []
                             (PRODUCT_STOCK_STATES w) [])))) -> j <> 0).
  { intros j Hj. apply scan_keys in Hj as [Hj|[p [_ Hpj]]]; [auto|].
    apply truthy_id_Some in Hpj as [_ Hpj]. exact Hpj. }
  destruct (scan_drop_falsy cls notif (INITIAL_RUN_COMPLETE w) snap [] []
              (PRODUCT_STOCK_STATES w) []) as [Hs1 Ho1].
  destruct (scan_spec cls notif (INITIAL_RUN_COMPLETE w) snap [] (PRODUCT_STOCK_STATES w) [])
    as (Hi1 & _ & _).
  destruct (scan_spec cls notif (INITIAL_RUN_COMPLETE w) kept [] (PRODUCT_STOCK_STATES w) [])
    as (Hi2 & _ & _).
  fold f in Hs1, Ho1. fold kept in Hs1, Ho1.
  assert (Hsnap : snap <> []) by (intros E; apply Hk; unfold kept; rewrite E; reflexivity).
  unfold check_and_notify_products.
  destruct snap as [|p0 rest]; [contradiction|].
  destruct kept as [|q0 qrest] eqn:Ek; [contradiction|].
  rewrite <- Ek in *.
  destruct (scan cls notif (INITIAL_RUN_COMPLETE w) (p0 :: rest) [] (PRODUCT_STOCK_STATES w) [])
    as [[ids1 s1] o1].
  destruct (scan cls notif (INITIAL_RUN_COMPLETE w) kept [] (PRODUCT_STOCK_STATES w) [])
    as [[ids2 s2] o2].
  cbn [fst snd] in *. subst ids1 ids2 s2 o2.
  assert (Hext : forall s, (forall j, In j (keys s) -> j <> 0) ->
                   remove_deleted (rev (map p_id (p0 :: rest)) ++ []) s
                   = remove_deleted (rev (map p_id kept) ++ []) s).
  { intros s Hs. apply remove_deleted_ext. intros j Hj. apply Hmem, Hs, Hj. }
  destruct (negb (INITIAL_RUN_COMPLETE w)).
  - pose proof (sweep_keys notif s1) as Hsk.
    destruct (sweep notif s1) as [s2 o2]. cbn [fst] in Hsk.
    rewrite Hext; [reflexivity|]. rewrite Hsk. exact Hkeys.
  - rewrite Hext; [reflexivity|exact Hkeys].
Qed.

(** Extra X6: [get_product_by_sku] returns a product exactly when the SKU
    is not empty, the client is configured, the GET on [products] with that
    SKU answers status 200 with a JSON list whose first item is a dict with
    a [name] key; the product returned is that first item. *)
Theorem get_product_by_sku_result (wc_send : wc_client -> wc_request -> outcome wc_response)
    (cfg : config) (sku : string) (x : jvalue) :
  get_product_by_sku wc_send cfg sku = Some x <->
  sku <> EmptyString
  /\ exists wcapi response fields rest,
       get_wc_api_client cfg = Some wcapi
       /\ wc_send wcapi (WC_GET "products" [("sku"%string, sku)]) = Ok response
       /\ status_code response = 200
       /\ resp_json response = Some (JArr (JObj fields :: rest))
       /\ obj_get "name" fields <> None
       /\ x = JObj fields.
Proof.
  unfold get_product_by_sku. split.
  - destruct (String.eqb sku EmptyString) eqn:Es; [discriminate|].
    apply String.eqb_neq in Es.
    destruct (get_wc_api_client cfg) as [c|]; [|discriminate].
    destruct (wc_send c _) as [r|ex] eqn:Er; [|discriminate]. cbn [py_bind try_none].
    unfold json. destruct (resp_json r) as [v|] eqn:Ej; [|discriminate]. cbn [py_bind].
    destruct (Z.eqb (status_code r) 200) eqn:Hs; [|discriminate]. apply Z.eqb_eq in Hs.
    destruct v as [|[]|q|[|ch s]|[|v0 rest]|[|kv f]]; cbn; try discriminate;
      try (destruct (negb _); discriminate).
    destruct v0 as [| | | | |f]; cbn; try discriminate.
    destruct (obj_get "name" f) eqn:En; cbn; [|discriminate].
    intros H. injection H as <-. split; [exact Es|].
    exists c, r, f, rest. repeat split; auto. congruence.
  - intros (Hne & c & r & f & rest & Hc & Hr & Hs & Hj & Hn & ->).
    apply String.eqb_neq in Hne. rewrite Hne, Hc, Hr. cbn [py_bind try_none].
    unfold json. rewrite Hj, Hs. cbn.
    destruct (obj_get "name" f); [reflexivity|contradiction].
Qed.

(** Extra X7: [create_woocommerce_product] returns a product exactly when
    the client is configured and the POST of the data to [products] answers
    status 201 with a JSON dict having [name] and [id] keys; it returns
    that dict. *)
Theorem create_woocommerce_product_result
    (wc_send : wc_client -> wc_request -> outcome wc_response)
    (cfg : config) (product_data : list (string * jvalue)) (x : jvalue) :
  create_woocommerce_product wc_send cfg product_data = Some x <->
  exists wcapi response fields,
    get_wc_api_client cfg = Some wcapi
    /\ wc_send wcapi (WC_POST "products" (JObj product_data)) = Ok response
    /\ status_code response = 201
    /\ resp_json response = Some (JObj fields)
    /\ obj_get "name" fields <> None /\ obj_get "id" fields <> None
    /\ x = JObj fields.
Proof.
  unfold create_woocommerce_product. split.
  - destruct (get_wc_api_client cfg) as [c|]; [|discriminate].
    destruct (wc_send c _) as [r|ex] eqn:Er; [|discriminate]. cbn [py_bind try_none].
    destruct (Z.eqb (status_code r) 201) eqn:Hs; [|discriminate]. apply Z.eqb_eq in Hs.
    unfold json. destruct (resp_json r) as [v|] eqn:Ej; [|discriminate]. cbn [py_bind].
    destruct v as [| | | | |f]; cbn; try discriminate.
    destruct (obj_get "name" f) eqn:En; cbn; [|discriminate].
    destruct (obj_get "id" f) eqn:Ei; cbn; [|discriminate].
    intros H. injection H as <-.
    exists c, r, f. repeat split; auto; congruence.
  - intros (c & r & f & Hc & Hr & Hs & Hj & Hn & Hi & ->).
    rewrite Hc, Hr. cbn [py_bind try_none]. rewrite Hs. cbn.
    unfold json. rewrite Hj. cbn.
    destruct (obj_get "name" f); [|contradiction].
    destruct (obj_get "id" f); [reflexivity|contradiction].
Qed.

(** Extra X8: [update_woocommerce_product_stock] returns a product exactly
    when the client is configured and the PUT to [products/<id>] of the
    dict holding only [stock_status] answers status 200 with a JSON dict;
    the [stock_quantity] argument is never sent. *)
Theorem update_woocommerce_product_stock_result
    (wc_send : wc_client -> wc_request -> outcome wc_response)
    (cfg : config) (product_id : Z) (stock_status : string) (stock_quantity : Z) (x : jvalue) :
  update_woocommerce_product_stock wc_send cfg product_id stock_status stock_quantity = Some x <->
  exists wcapi response fields,
    get_wc_api_client cfg = Some wcapi
    /\ wc_send wcapi (WC_PUT ("products/" ++ str_of_Z product_id)
                             (JObj [("stock_status"%string, JStr stock_status)])) = Ok response
    /\ status_code response = 200
    /\ resp_json response = Some (JObj fields)
    /\ x = JObj fields.
Proof.
  unfold update_woocommerce_product_stock. split.
  - destruct (get_wc_api_client cfg) as [c|]; [|discriminate].
    destruct (wc_send c _) as [r|ex] eqn:Er; [|discriminate]. cbn [py_bind try_none].
    destruct (Z.eqb (status_code r) 200) eqn:Hs; [|discriminate]. apply Z.eqb_eq in Hs.
    unfold json. destruct (resp_json r) as [v|] eqn:Ej; [|discriminate]. cbn [py_bind].
    destruct v as [| | | | |f]; cbn; try discriminate.
    intros H. injection H as <-. exists c, r, f. auto.
  - intros (c & r & f & Hc & Hr & Hs & Hj & ->).
    rewrite Hc, Hr. cbn [py_bind try_none]. rewrite Hs. cbn.
    unfold json. rewrite Hj. reflexivity.
Qed.

(** Extra X9: [test_woocommerce_connection] is true exactly when the
    client is configured and the GET on the API index answers status 200
    with a JSON dict. *)
Theorem test_woocommerce_connection_result
    (wc_send : wc_client -> wc_request -> outcome wc_response) (cfg : config) :
  test_woocommerce_connection wc_send cfg = true <->
  exists wcapi response fields,
    get_wc_api_client cfg = Some wcapi
    /\ wc_send wcapi (WC_GET "" []) = Ok response
    /\ status_code response = 200
    /\ resp_json response = Some (JObj fields).
Proof.
  unfold test_woocommerce_connection. split.
  - destruct (get_wc_api_client cfg) as [c|]; [|discriminate].
    destruct (wc_send c _) as [r|ex] eqn:Er; [|discriminate]. cbn [py_bind].
    destruct (Z.eqb (status_code r) 200) eqn:Hs; [|discriminate]. apply Z.eqb_eq in Hs.
    unfold json. destruct (resp_json r) as [v|] eqn:Ej; [|discriminate]. cbn [py_bind].
    destruct v as [| | | | |f]; cbn; try discriminate.
    intros _. exists c, r, f. auto.
  - intros (c & r & f & Hc & Hr & Hs & Hj).
    rewrite Hc, Hr. cbn [py_bind]. rewrite Hs. cbn.
    unfold json. rewrite Hj. reflexivity.
Qed.

(** Config helpers. *)
Lemma truthy_str_Some (v : option string) :
  truthy_str v = true -> exists s, v = Some s /\ s <> EmptyString.
Proof.
  destruct v as [s|]; cbn; [|discriminate].
  intros H. exists s. split; [reflexivity|]. apply negb_true_iff, String.eqb_neq in H. exact H.
Qed.








(** Extra X10: [validate_basic_config] passes exactly when the start-up
    guard of main.py holds, and then a WooCommerce client is built. *)
Theorem startup_checks_agree (cfg : config) :
  (validate_basic_config cfg = None <-> main_config_ok cfg = true) /\
  (main_config_ok cfg = true -> exists wcapi, get_wc_api_client cfg = Some wcapi).
Proof.
  split.
  - unfold validate_basic_config, main_config_ok, get_telegram_channel_id.
    cbn [filter snd map forallb].
    destruct (truthy_str (TELEGRAM_BOT_TOKEN cfg)), (truthy_str (WOOCOMMERCE_STORE_URL cfg)),
      (truthy_str (WOOCOMMERCE_CONSUMER_KEY cfg)), (truthy_str (WOOCOMMERCE_CONSUMER_SECRET cfg)),
      (truthy_str (TELEGRAM_CHANNEL_ID cfg)); cbn; split; congruence.
  - unfold main_config_ok. cbn [forallb]. rewrite !andb_true_iff.
    intros (_ & _ & Hu & Hk & Hs & _).
    unfold get_wc_api_client. rewrite Hu, Hk, Hs. cbn [andb].
    apply truthy_str_Some in Hu as (u & -> & _).
    apply truthy_str_Some in Hk as (k & -> & _).
    apply truthy_str_Some in Hs as (s & -> & _).
    eexists; reflexivity.
Qed.



(** ** Witnesses of the further properties *)

Lemma run_notifications_match_records_witness :
  reachable sample_classifier notifier_ok initial_world
  /\ snd (check_and_notify_products sample_classifier notifier_ok [widget_out; gadget_in]
            initial_world) <> []
  /\ (forall n, In n (snd (check_and_notify_products sample_classifier notifier_ok
                             [widget_out; gadget_in] initial_world)) ->
      exists p, In p [widget_out; gadget_in] /\ truthy_id (p_id p) = Some (n_id n)
        /\ sample_classifier p = true
        /\ n_name n = product_name p /\ n_permalink n = product_permalink p).
Proof.
  split; [constructor|]. split; [vm_compute; discriminate|].
  apply (run_notifications_match_records sample_classifier notifier_ok initial_world
           [widget_out; gadget_in]).
  constructor.
Defined.

Lemma unique_id_notified_at_most_once_witness :
  wf initial_world
  /\ (List.length (filter (is_key 1) [widget_out; gadget_in]) <= 1)%nat
  /\ (count_for 1 (snd (check_and_notify_products sample_classifier notifier_ok
                          [widget_out; gadget_in] initial_world)) <= 1)%nat.
Proof.
  assert (Hwf : wf initial_world) by apply NoDup_nil.
  assert (Hl : (List.length (filter (is_key 1) [widget_out; gadget_in]) <= 1)%nat)
    by (vm_compute; lia).
  split; [exact Hwf|]. split; [exact Hl|].
  apply (unique_id_notified_at_most_once sample_classifier notifier_ok initial_world
           [widget_out; gadget_in] 1 Hwf Hl).
Defined.

Lemma stored_entry_from_last_record_witness :
  wf initial_world
  /\ (exists q, In q [widget_in; gadget_in; widget_out] /\ truthy_id (p_id q) = Some 1)
  /\ exists st, lookup 1 (PRODUCT_STOCK_STATES
                  (fst (check_and_notify_products sample_classifier notifier_ok
                          [widget_in; gadget_in; widget_out] initial_world))) = Some st
       /\ name st = product_name widget_out /\ permalink st = product_permalink widget_out
       /\ is_out_of_stock st = sample_classifier widget_out.
Proof.
  assert (Hwf : wf initial_world) by apply NoDup_nil.
  assert (Hq : exists q, In q [widget_in; gadget_in; widget_out]
                         /\ truthy_id (p_id q) = Some 1)
    by (exists widget_in; split; [left; reflexivity | reflexivity]).
  split; [exact Hwf|]. split; [exact Hq|].
  exact (stored_entry_from_last_record sample_classifier notifier_ok initial_world
           [widget_in; gadget_in; widget_out] 1 gadget_in Hwf Hq).
Defined.

Lemma initial_run_flag_witness :
  reachable sample_classifier notifier_ok widget_world
  /\ INITIAL_RUN_COMPLETE widget_world = true
  /\ INITIAL_RUN_COMPLETE (fst (check_and_notify_products sample_classifier notifier_ok []
                                 initial_world)) = false.
Proof.
  assert (Hr : reachable sample_classifier notifier_ok widget_world)
    by (apply reachable_run; constructor).
  assert (Hi : reachable sample_classifier notifier_ok initial_world) by constructor.
  split; [exact Hr|]. split.
  - apply (proj2 (initial_run_flag sample_classifier notifier_ok initial_world Hi)
                 [widget_out]).
    right. discriminate.
  - apply Bool.not_true_iff_false. intros H.
    apply (proj2 (initial_run_flag sample_classifier notifier_ok initial_world Hi) []) in H.
    destruct H as [H|H]; [discriminate|apply H; reflexivity].
Defined.

Lemma falsy_id_records_ignored_witness :
  (forall k, In k (keys (PRODUCT_STOCK_STATES initial_world)) -> k <> 0)
  /\ check_and_notify_products sample_classifier notifier_ok [draft_item; widget_out]
       initial_world
     = check_and_notify_products sample_classifier notifier_ok [widget_out] initial_world.
Proof.
  assert (Hk : forall k, In k (keys (PRODUCT_STOCK_STATES initial_world)) -> k <> 0)
    by (intros k []).
  split; [exact Hk|].
  exact (falsy_id_records_ignored sample_classifier notifier_ok initial_world
           [draft_item; widget_out] Hk ltac:(vm_compute; discriminate)).
Defined.

